(** * TorchServe Vision dashboard: the client-side pipeline of [app.py]

    A shallow embedding of the four helper stages of [app.py]
    ([validate_image], [preprocess_image], [get_predictions],
    [format_confidence]), of the part of the page script that checks the
    server status, updates the session state and renders the ranked
    predictions, and of what [setup_model.py] prints.

    Pillow, requests and Streamlit are libraries the script calls; what the
    script needs from them is taken as a parameter of the section that embeds
    the caller.  Where a statement needs a concrete library to run on, it
    names one of the stand-ins of module [Doubles].  A Python [float] is a
    binary64 double ([PrimFloat.float]). *)

From Stdlib Require Import ZArith List String Ascii Bool Lia.
From Stdlib Require Import Floats DecimalString.
From Stdlib Require Strings.Byte DecimalFacts DecimalPos.
Import ListNotations.

Set Warnings "-register-all,-inexact-float".

Open Scope string_scope.
Open Scope Z_scope.

(** ** Python values, exceptions and results *)

Module Py.

(** The exception classes the script can meet.  [ConnectTimeout] derives
    from both [ConnectionError] and [Timeout] in requests; [ReadTimeout]
    derives from [Timeout] only. *)
Inductive ExnClass : Type :=
| ConnectionError
| ConnectTimeout
| Timeout
| ReadTimeout
| JSONDecodeError
| AttributeError
| OSError
| UnidentifiedImageError
| ValueError
| OtherException.

Record PyExn : Type := mkExn { exn_class : ExnClass; exn_str : string }.

Definition isinstance_ConnectionError (e : PyExn) : bool :=
  match exn_class e with
  | ConnectionError | ConnectTimeout => true
  | _ => false
  end.

Definition isinstance_Timeout (e : PyExn) : bool :=
  match exn_class e with
  | Timeout | ConnectTimeout | ReadTimeout => true
  | _ => false
  end.

(** A computation that returns a value or raises. *)
Inductive result (A : Type) : Type :=
| Return (a : A)
| Raise (e : PyExn).
Arguments Return {A} a.
Arguments Raise {A} e.

Definition bind {A B : Type} (m : result A) (k : A -> result B) : result B :=
  match m with
  | Return a => k a
  | Raise e => Raise e
  end.

(** [try: body except <anything> as e: handler e] *)
Definition try_except {A : Type} (body : result A) (handler : PyExn -> result A)
  : result A :=
  match body with
  | Return a => Return a
  | Raise e => handler e
  end.

(** The values [json()] can return.  A dict keeps its insertion order. *)
Inductive pyval : Type :=
| PNone
| PBool (b : bool)
| PInt (z : Z)
| PFloat (f : float)
| PStr (s : string)
| PList (l : list pyval)
| PDict (d : list (string * pyval)).

Definition is_None (v : pyval) : bool :=
  match v with PNone => true | _ => false end.

(** Truth value of [if v:]. *)
Definition truthy (v : pyval) : bool :=
  match v with
  | PNone => false
  | PBool b => b
  | PInt z => negb (z =? 0)
  | PFloat f => negb (PrimFloat.eqb f 0)
  | PStr s => negb (String.eqb s "")
  | PList l => match l with [] => false | _ => true end
  | PDict d => match d with [] => false | _ => true end
  end.

Fixpoint dict_lookup {V : Type} (d : list (string * V)) (k : string) : option V :=
  match d with
  | [] => None
  | (k', v) :: d' => if String.eqb k' k then Some v else dict_lookup d' k
  end.

Definition type_name (v : pyval) : string :=
  match v with
  | PNone => "NoneType"
  | PBool _ => "bool"
  | PInt _ => "int"
  | PFloat _ => "float"
  | PStr _ => "str"
  | PList _ => "list"
  | PDict _ => "dict"
  end.

(** [v.get(k, default)]: only a dict has the method. *)
Definition method_get (v : pyval) (k : string) (default : pyval) : result pyval :=
  match v with
  | PDict d =>
      match dict_lookup d k with
      | Some x => Return x
      | None => Return default
      end
  | _ => Raise (mkExn AttributeError
                  ("'" ++ type_name v ++ "' object has no attribute 'get'"))
  end.

(** [str(n)] for an int. *)
Definition str_int (z : Z) : string := NilZero.string_of_int (Z.to_int z).

(** [s[:n]] *)
Definition slice_to (n : nat) (s : string) : string := substring 0 n s.

(** [needle in hay] *)
Fixpoint contains (needle hay : string) : bool :=
  prefix needle hay ||
  match hay with
  | EmptyString => false
  | String _ hay' => contains needle hay'
  end.

End Py.
Import Py.

Declare Scope py_scope.
Delimit Scope py_scope with py.
Notation "x <- m ;; k" := (bind m (fun x => k))
  (at level 61, m at next level, right associativity) : py_scope.
Notation "' pat <- m ;; k" := (bind m (fun x => match x with pat => k end))
  (at level 61, pat pattern, m at next level, right associativity) : py_scope.
Open Scope py_scope.

(** ** Configuration and constants ([app.py], lines 89-92) *)

Definition TORCHSERVE_URL : string := "http://localhost:8080/predictions/resnet".
Definition MAX_FILE_SIZE : Z := 10 * 1024 * 1024.
Definition ALLOWED_FORMATS : list string := ["jpg"; "jpeg"; "png"; "webp"].
Definition REQUEST_TIMEOUT : Z := 30.

(** ** The inference client *)

(** What the script reads of a [requests.Response]: the status, the decoded
    body and what [json()] gives (the parsed value, or the exception it
    raises on a body that is not JSON). *)
Record Response : Type := mkResponse {
  status_code : Z;
  text : string;
  json : result pyval
}.

Definition bytes : Type := list Byte.byte.

Section InferenceClient.

(** [requests.post(url, data=..., timeout=..., headers=...)]: the network. *)
Variable requests_post :
  string -> bytes -> Z -> list (string * string) -> result Response.

(** [str(v)] inside an f-string, for a value that is not a [str]
    (Python's built-in [repr]). *)
Variable py_repr : pyval -> string.

Definition py_str (v : pyval) : string :=
  match v with
  | PStr s => s
  | _ => py_repr v
  end.

(** Lines 134-140: the message of a non-200 answer. *)
Definition server_error_msg (response : Response) : string :=
  let error_msg := "Server returned status " ++ str_int (status_code response) in
  match (error_detail <- json response ;;
         v <- method_get error_detail "message" (PStr (text response)) ;;
         Return (error_msg ++ ": " ++ py_str v)) with
  | Return error_msg' => error_msg'
  | Raise _ => error_msg ++ ": " ++ slice_to 200 (text response)
  end.

(** Lines 142-147: the three handlers, tried in order. *)
Definition get_predictions_handler (e : PyExn)
  : result (bool * pyval * option string) :=
  if isinstance_ConnectionError e then
    Return (false, PNone,
            Some "Cannot connect to TorchServe. Please ensure Docker container is running on port 8080.")
  else if isinstance_Timeout e then
    Return (false, PNone,
            Some ("Request timed out after " ++ str_int REQUEST_TIMEOUT ++ " seconds."))
  else
    Return (false, PNone, Some ("Unexpected error: " ++ exn_str e)).

(** Lines 120-147. *)
Definition get_predictions (image_bytes : bytes)
  : result (bool * pyval * option string) :=
  try_except
    (response <- requests_post TORCHSERVE_URL image_bytes REQUEST_TIMEOUT
                   [("Content-Type", "application/octet-stream")] ;;
     if status_code response =? 200 then
       predictions <- json response ;;
       Return (true, predictions, None)
     else
       Return (false, PNone, Some (server_error_msg response)))
    get_predictions_handler.

End InferenceClient.

(** ** Uploaded files and images *)

(** A Streamlit [UploadedFile]: an in-memory byte stream with a name, a size
    and a read position. *)
Record UploadedFile : Type := mkUpload {
  uf_name : string;
  uf_size : Z;
  uf_data : bytes;
  uf_pos : Z
}.

(** [uploaded_file.seek(p)] *)
Definition seek (f : UploadedFile) (p : Z) : UploadedFile :=
  {| uf_name := uf_name f; uf_size := uf_size f; uf_data := uf_data f; uf_pos := p |}.

(** What the script reads of a Pillow [Image]. *)
Record Image : Type := mkImage {
  im_format : string;
  im_mode : string;
  im_width : Z;
  im_height : Z;
  im_pixels : list Z
}.

Section ImageStages.

(** [Image.open(fp)]: the image or an exception, and the stream as the
    decoder left it. *)
Variable Image_open : UploadedFile -> result Image * UploadedFile.

(** [image.verify()], which reads on from the stream the image was opened
    on. *)
Variable Image_verify : Image -> UploadedFile -> result unit * UploadedFile.

(** [image.convert(mode)] *)
Variable Image_convert : Image -> string -> Image.

(** [image.save(buffer, format=..., quality=...)] followed by
    [buffer.getvalue()]. *)
Variable Image_save : Image -> string -> Z -> result bytes.

(** Lines 98-109. *)
Definition validate_image (uploaded_file : UploadedFile)
  : (bool * option string) * UploadedFile :=
  if uf_size uploaded_file >? MAX_FILE_SIZE then
    ((false, Some "File size exceeds 10MB limit."), uploaded_file)
  else
    match Image_open uploaded_file with
    | (Raise e, f1) => ((false, Some ("Invalid image file: " ++ exn_str e)), f1)
    | (Return image, f1) =>
        match Image_verify image f1 with
        | (Raise e, f2) => ((false, Some ("Invalid image file: " ++ exn_str e)), f2)
        | (Return _, f2) => ((true, None), seek f2 0)
        end
    end.

(** Lines 111-118. *)
Definition preprocess_image (image : Image) : result bytes :=
  let image :=
    if String.eqb (im_mode image) "RGBA" then Image_convert image "RGB" else image in
  Image_save image "JPEG" 95.

End ImageStages.

(** ** Python's float formatting and string methods *)

Module PyFormat.

(** The decimal digit [d] (0..9) as a character. *)
Definition digit_char (d : Z) : ascii := ascii_of_nat (48 + Z.to_nat d).

Definition is_digit (c : ascii) : bool :=
  let n := nat_of_ascii c in (48 <=? n)%nat && (n <=? 57)%nat.

Fixpoint all_digits (s : string) : bool :=
  match s with
  | EmptyString => true
  | String c s' => is_digit c && all_digits s'
  end.

(** The last [k] decimal digits of [n], most significant first. *)
Fixpoint fixed_digits (k : nat) (n : Z) : string :=
  match k with
  | O => EmptyString
  | S k' => fixed_digits k' (n / 10) ++ String (digit_char (n mod 10)) EmptyString
  end.

(** [num / den] rounded to the nearest integer, ties to the even one
    (for [0 <= num] and [0 < den]). *)
Definition round_half_even (num den : Z) : Z :=
  let q := num / den in
  let r := num mod den in
  if 2 * r <? den then q
  else if den <? 2 * r then q + 1
  else if Z.even q then q else q + 1.

(** The exact value of a finite double [m * 2^e] times [10^prec], as a
    fraction. *)
Definition scaled_num (prec : nat) (m e : Z) : Z :=
  m * 10 ^ Z.of_nat prec * 2 ^ Z.max 0 e.
Definition scaled_den (e : Z) : Z := 2 ^ Z.max 0 (- e).

(** The digits of [n / 10^prec] with [prec] decimals. *)
Definition fixed_point (prec : nat) (n : Z) : string :=
  str_int (n / 10 ^ Z.of_nat prec) ++
  match prec with
  | O => EmptyString
  | S _ => "." ++ fixed_digits prec (n mod 10 ^ Z.of_nat prec)
  end.

Definition sign_str (s : bool) : string := if s then "-" else "".

(** [format(x, ".{prec}f")]: the decimal expansion of the double, correctly
    rounded to [prec] decimals (ties to even on the exact binary value). *)
Definition format_f (prec : nat) (x : float) : string :=
  match Prim2SF x with
  | S754_nan => "nan"
  | S754_infinity s => sign_str s ++ "inf"
  | S754_zero s => sign_str s ++ fixed_point prec 0
  | S754_finite s m e =>
      sign_str s ++
      fixed_point prec (round_half_even (scaled_num prec (Zpos m) e) (scaled_den e))
  end.

(** [int(x)]: truncation toward zero; raises on nan and the infinities. *)
Definition int_of_float (x : float) : result Z :=
  match Prim2SF x with
  | S754_nan => Raise (mkExn ValueError "cannot convert float NaN to integer")
  | S754_infinity _ =>
      Raise (mkExn OtherException "cannot convert float infinity to integer")
  | S754_zero _ => Return 0
  | S754_finite s m e =>
      let a := (Zpos m * 2 ^ Z.max 0 e) / 2 ^ Z.max 0 (- e) in
      Return (if s then - a else a)
  end.

Definition is_upper (c : ascii) : bool :=
  let n := nat_of_ascii c in (65 <=? n)%nat && (n <=? 90)%nat.
Definition is_lower (c : ascii) : bool :=
  let n := nat_of_ascii c in (97 <=? n)%nat && (n <=? 122)%nat.
Definition to_upper (c : ascii) : ascii :=
  if is_lower c then ascii_of_nat (nat_of_ascii c - 32) else c.
Definition to_lower (c : ascii) : ascii :=
  if is_upper c then ascii_of_nat (nat_of_ascii c + 32) else c.

(** [s.replace(a, b)] for single characters. *)
Fixpoint replace_char (a b : ascii) (s : string) : string :=
  match s with
  | EmptyString => EmptyString
  | String c s' => String (if Ascii.eqb c a then b else c) (replace_char a b s')
  end.

(** Whether [s] is a [str] of ASCII characters ([s.isascii()]). *)
Fixpoint is_ascii (s : string) : bool :=
  match s with
  | EmptyString => true
  | String c s' => (nat_of_ascii c <? 128)%nat && is_ascii s'
  end.

(** [s.title()] for a [str] of ASCII characters: a letter that follows a
    letter is lowered, any other letter is raised.  [prev] tells whether the
    previous character was a letter.  Outside ASCII Python maps case by the
    Unicode tables and can change the number of characters; those tables
    are not part of this development, and what is stated of [title] is
    stated of the strings that satisfy [is_ascii]. *)
Fixpoint title_from (prev : bool) (s : string) : string :=
  match s with
  | EmptyString => EmptyString
  | String c s' =>
      let cased := is_upper c || is_lower c in
      String (if prev then to_lower c else to_upper c) (title_from cased s')
  end.
Definition title (s : string) : string := title_from false s.

End PyFormat.
Import PyFormat.

(** ** The result formatter *)

(** Lines 149-151. *)
Definition format_confidence (value : float) : string :=
  format_f 2 (value * 100)%float ++ "%".

(** Line 345: the [delta] of the confidence metric. *)
Definition confidence_delta (best_score : float) : string :=
  if (0.7 <? best_score)%float then "High"
  else if (0.4 <? best_score)%float then "Medium"
  else "Low".

(** Line 346. *)
Definition confidence_delta_color (best_score : float) : string :=
  if (0.7 <? best_score)%float then "normal" else "off".

(** A prediction mapping as the display code uses it: label to score, in
    the order of the dict. *)
Definition Predictions : Type := list (string * float).

Definition keys (predictions : Predictions) : list string := map fst predictions.
Definition values (predictions : Predictions) : list float := map snd predictions.
Definition items (predictions : Predictions) : list (string * float) := predictions.

(** [enumerate(l, start)] *)
Fixpoint enumerate {A : Type} (l : list A) (start : Z) : list (Z * A) :=
  match l with
  | [] => []
  | x :: l' => (start, x) :: enumerate l' (start + 1)
  end.

Inductive Medal : Type := Gold | Silver | Bronze | Bullet.

(** Line 362. *)
Definition medal (idx : Z) : Medal :=
  if idx =? 1 then Gold else if idx =? 2 then Silver
  else if idx =? 3 then Bronze else Bullet.

(** Lines 338 and 363, for a label of ASCII characters (see [title]). *)
Definition display_label (label : string) : string :=
  title (replace_char "_" " " label).

(** Line 369. *)
Definition row_percentage (confidence : float) : string :=
  let score_pct := (confidence * 100)%float in
  format_f 1 score_pct ++ "%".

(** One row of "All Predictions" (lines 354-369). *)
Record Row : Type := mkRow {
  row_idx : Z;
  row_label : string;
  row_confidence : float;
  row_medal : Medal;
  row_title : string;
  row_bar : result Z;
  row_value : string
}.

Definition render_row (entry : Z * (string * float)) : Row :=
  let '(idx, (label, confidence)) := entry in
  let score_pct := (confidence * 100)%float in
  {| row_idx := idx;
     row_label := label;
     row_confidence := confidence;
     row_medal := medal idx;
     row_title := display_label label;
     row_bar := (n <- int_of_float score_pct ;; Return (Z.min n 100));
     row_value := row_percentage confidence |}.

(** The headline of the display (lines 330-347). *)
Record TopSummary : Type := mkTop {
  best_label : string;
  best_score : float;
  top_title : string;
  top_value : string;
  top_delta : string;
  top_delta_color : string
}.

Section Display.

(** [st.progress(value)] for an [int]: the bar is drawn, or the call
    raises. *)
Variable st_progress : Z -> result unit.

(** Lines 354-369: the loop over the rows.  A row is drawn from left to
    right: the label, then the bar, then the value.  When [int] or
    [st.progress] raises at line 366, the loop ends there and the script
    with it: the rows before it are drawn in full, the row at hand has its
    label only and is not counted, and no later row is begun. *)
Fixpoint render_rows (entries : list (Z * (string * float)))
  : list Row * option PyExn :=
  match entries with
  | [] => ([], None)
  | entry :: rest =>
      let row := render_row entry in
      match (n <- row_bar row ;; st_progress n) with
      | Raise e => ([], Some e)
      | Return _ =>
          let '(rows, raised) := render_rows rest in (row :: rows, raised)
      end
  end.

(** Lines 324-369, for a mapping of labels to float scores: the headline,
    the rows drawn in full and the exception that ended the loop, if one
    did.  An empty dict is falsy, so nothing is drawn for it. *)
Definition render_predictions (predictions : Predictions)
  : option (TopSummary * list Row * option PyExn) :=
  match nth_error (keys predictions) 0, nth_error (values predictions) 0 with
  | Some label, Some score =>
      let '(rows, raised) := render_rows (enumerate (items predictions) 1) in
      Some ({| best_label := label;
               best_score := score;
               top_title := display_label label;
               top_value := format_confidence score;
               top_delta := confidence_delta score;
               top_delta_color := confidence_delta_color score |},
            rows, raised)
  | _, _ => None
  end.

End Display.

(** ** The page script: session state across reruns *)

(** [st.session_state], as far as the script uses it (lines 214-217). *)
Record SessionState : Type := mkSession {
  predictions : pyval;
  analysis_time : option float
}.

Definition initial_session : SessionState :=
  {| predictions := PNone; analysis_time := None |}.

(** What one rerun of the script meets: the widget values, the network and
    the clock. *)
Record Rerun : Type := mkRerun {
  uploaded_file : option UploadedFile;
  analyze_btn : bool;
  network : string -> bytes -> Z -> list (string * string) -> result Response;
  elapsed : float
}.

(** How far a rerun got. *)
Inductive Outcome : Type :=
| NoAnalysis
| Analysed (success : bool) (error_msg : option string)
| Crashed (e : PyExn).

(** The session after the rerun, how far it got, and the predictions handed
    to the display block of line 324 (if any). *)
Record RunResult : Type := mkRun {
  session : SessionState;
  outcome : Outcome;
  displayed : option pyval
}.

(** The status shown in the sidebar. *)
Inductive ServerStatus : Type :=
| Online
| Responding
| Offline.

Definition PING_URL : string := "http://localhost:8080/ping".

(** Lines 188-195, run at the start of every rerun: one GET with a timeout
    of 2 seconds; the bare [except] takes whatever is raised. *)
Definition health_check (requests_get : string -> Z -> result Response)
  : ServerStatus :=
  match requests_get PING_URL 2 with
  | Return health =>
      if status_code health =? 200 then Online else Responding
  | Raise _ => Offline
  end.

(** What a rerun of the page shows: the sidebar status and the result of
    the body. *)
Record Page : Type := mkPage {
  server_status : ServerStatus;
  page_body : RunResult
}.

Section Script.

Variable Image_open : UploadedFile -> result Image * UploadedFile.
Variable Image_verify : Image -> UploadedFile -> result unit * UploadedFile.
Variable Image_convert : Image -> string -> Image.
Variable Image_save : Image -> string -> Z -> result bytes.
Variable py_repr : pyval -> string.

(** Line 324: [if st.session_state.predictions:] *)
Definition display_block (ss : SessionState) : option pyval :=
  if truthy (predictions ss) then Some (predictions ss) else None.

(** Lines 315-321. *)
Definition store_outcome (ss : SessionState) (now : float)
    (r : bool * pyval * option string) : SessionState :=
  let '(success, preds, _) := r in
  if success then
    {| predictions := preds; analysis_time := Some now |}
  else
    {| predictions := PNone; analysis_time := analysis_time ss |}.

(** Lines 234-324: one run of the script body.  An exception that leaves a
    helper ends the run where it is raised; Streamlit keeps the session
    state as it was at that point. *)
Definition run_script (ss : SessionState) (r : Rerun) : RunResult :=
  match uploaded_file r with
  | None => {| session := ss; outcome := NoAnalysis; displayed := None |}
  | Some f =>
      let '((is_valid, _), f1) := validate_image Image_open Image_verify f in
      if negb is_valid then
        {| session := ss; outcome := NoAnalysis; displayed := None |}
      else
        match Image_open f1 with
        | (Raise e, _) => {| session := ss; outcome := Crashed e; displayed := None |}
        | (Return image, _) =>
            if analyze_btn r then
              match preprocess_image Image_convert Image_save image with
              | Raise e =>
                  {| session := ss; outcome := Crashed e; displayed := None |}
              | Return image_bytes =>
                  match get_predictions (network r) py_repr image_bytes with
                  | Raise e =>
                      {| session := ss; outcome := Crashed e; displayed := None |}
                  | Return res =>
                      let ss' := store_outcome ss (elapsed r) res in
                      {| session := ss';
                         outcome := Analysed (fst (fst res)) (snd res);
                         displayed := display_block ss' |}
                  end
              end
            else
              {| session := ss; outcome := NoAnalysis; displayed := display_block ss |}
        end
  end.

(** One rerun of the whole page: the sidebar with its status check, then
    the body. *)
Definition run_page (requests_get : string -> Z -> result Response)
    (ss : SessionState) (r : Rerun) : Page :=
  {| server_status := health_check requests_get;
     page_body := run_script ss r |}.

(** The session after a sequence of reruns, with the success flag of the
    most recent analysis that ran to completion. *)
Fixpoint run_all (ss : SessionState) (last : option bool) (rs : list Rerun)
  : SessionState * option bool :=
  match rs with
  | [] => (ss, last)
  | r :: rs' =>
      let res := run_script ss r in
      let last' := match outcome res with
                   | Analysed success _ => Some success
                   | _ => last
                   end in
      run_all (session res) last' rs'
  end.

End Script.

(** ** Predicates the statements use *)

(** The verify-only decode of [validate_image]: open, then verify, on the
    same stream. *)
Definition decode_attempt
    (Image_open : UploadedFile -> result Image * UploadedFile)
    (Image_verify : Image -> UploadedFile -> result unit * UploadedFile)
    (f : UploadedFile) : result unit * UploadedFile :=
  match Image_open f with
  | (Raise e, f1) => (Raise e, f1)
  | (Return image, f1) => Image_verify image f1
  end.

Definition decodable
    (Image_open : UploadedFile -> result Image * UploadedFile)
    (Image_verify : Image -> UploadedFile -> result unit * UploadedFile)
    (f : UploadedFile) : bool :=
  match decode_attempt Image_open Image_verify f with
  | (Return _, _) => true
  | (Raise _, _) => false
  end.

(** The body parses as JSON with a [message] field. *)
Definition message_field (response : Response) : option pyval :=
  match json response with
  | Return (PDict d) => dict_lookup d "message"
  | _ => None
  end.

(** The triple of [get_predictions] as C10 wants it: flag set iff
    predictions present iff no message. *)
Definition consistent_triple (t : bool * pyval * option string) : Prop :=
  let '(success, preds, err) := t in
  (success = true <-> is_None preds = false) /\
  (is_None preds = false <-> err = None).

Definition is_number (v : pyval) : bool :=
  match v with PInt _ | PFloat _ => true | _ => false end.

(** The body is a JSON object that maps labels to numbers. *)
Definition label_scores_body (response : Response) : bool :=
  match json response with
  | Return (PDict d) => forallb (fun kv => is_number (snd kv)) d
  | _ => false
  end.

(** The doubles nearest to 0.7 and 0.4, as sign, mantissa and exponent. *)
Definition double_0_7 : spec_float := S754_finite false 6305039478318694 (-53).
Definition double_0_4 : spec_float := S754_finite false 7205759403792794 (-54).

(** The sign, mantissa and exponent of a double that is zero or finite. *)
Definition finite_parts (x : float) : option (bool * Z * Z) :=
  match Prim2SF x with
  | S754_zero s => Some (s, 0, 0)
  | S754_finite s m e => Some (s, Zpos m, e)
  | _ => None
  end.

(** The number a string of decimal digits stands for, read from the left. *)
Fixpoint decimal_value_from (acc : Z) (digits : string) : Z :=
  match digits with
  | EmptyString => acc
  | String c digits' =>
      decimal_value_from (10 * acc + (Z.of_nat (nat_of_ascii c) - 48)) digits'
  end.
Definition decimal_value (digits : string) : Z := decimal_value_from 0 digits.

(** An integer part as Python writes it: at least one digit, and no zero in
    front of another digit. *)
Definition no_leading_zero (digits : string) : bool :=
  match digits with
  | EmptyString => false
  | String c EmptyString => true
  | String c _ => negb (Ascii.eqb c "0")
  end.

(** [out] shows the double [(-1)^s * m * 2^e] with exactly [prec] decimals:
    a sign, the digits of an integer part, a point and [prec] digits.  Read
    as a number without the point, the digits are [n], where [n / 10^prec]
    is the multiple of [10^-prec] nearest to [m * 2^e], the even one of the
    two when it sits halfway.  This fixes [out] character by character. *)
Definition rendered (prec : nat) (s : bool) (m e : Z) (out : string) : Prop :=
  exists (n : Z) (int_part frac_part : string),
    0 <= n /\
    2 * Z.abs (scaled_num prec m e - n * scaled_den e) <= scaled_den e /\
    (2 * Z.abs (scaled_num prec m e - n * scaled_den e) = scaled_den e ->
     Z.even n = true) /\
    out = sign_str s ++ int_part ++ "." ++ frac_part /\
    all_digits int_part = true /\
    no_leading_zero int_part = true /\
    all_digits frac_part = true /\
    String.length frac_part = prec /\
    decimal_value (int_part ++ frac_part) = n.

(** ** Test doubles

    Concrete stand-ins for the libraries, used to run the stages on explicit
    inputs. *)

Module Doubles.

Definition PNG_SIGNATURE : bytes :=
  [Byte.x89; Byte.x50; Byte.x4e; Byte.x47; Byte.x0d; Byte.x0a; Byte.x1a; Byte.x0a].

Fixpoint starts_with (p l : bytes) : bool :=
  match p, l with
  | [], _ => true
  | _ :: _, [] => false
  | a :: p', b :: l' => Byte.eqb a b && starts_with p' l'
  end.

Definition len (l : bytes) : Z := Z.of_nat (List.length l).

(** An opener in the manner of Pillow's [Image.open]: it rewinds the
    stream, reads a 16-byte prefix and identifies the format from it; a
    prefix it does not know raises, with the stream left after the prefix. *)
Definition sniff_open (f : UploadedFile) : result Image * UploadedFile :=
  let after_prefix := seek f (Z.min 16 (len (uf_data f))) in
  if starts_with PNG_SIGNATURE (uf_data f) then
    (Return {| im_format := "PNG"; im_mode := "RGBA"; im_width := 1;
               im_height := 1; im_pixels := [0; 0; 0; 255] |},
     after_prefix)
  else
    (Raise (mkExn UnidentifiedImageError "cannot identify image file"),
     after_prefix).

(** [verify] reads the stream to its end. *)
Definition read_all_verify (im : Image) (f : UploadedFile)
  : result unit * UploadedFile :=
  (Return tt, seek f (len (uf_data f))).

(** An opener that never moves the stream. *)
Definition still_open (f : UploadedFile) : result Image * UploadedFile :=
  if starts_with PNG_SIGNATURE (uf_data f) then
    (Return {| im_format := "PNG"; im_mode := "RGBA"; im_width := 1;
               im_height := 1; im_pixels := [0; 0; 0; 255] |}, f)
  else
    (Raise (mkExn UnidentifiedImageError "cannot identify image file"), f).

Definition still_verify (im : Image) (f : UploadedFile)
  : result unit * UploadedFile := (Return tt, f).

(** [convert] at the level of what the script reads: the mode changes, the
    size does not. *)
Definition mode_convert (im : Image) (mode : string) : Image :=
  {| im_format := im_format im; im_mode := mode; im_width := im_width im;
     im_height := im_height im; im_pixels := im_pixels im |}.

(** The modes Pillow's JPEG writer accepts (the keys of [RAWMODE] in
    [JpegImagePlugin]). *)
Definition JPEG_RAWMODE : list (string * string) :=
  [("1", "L"); ("L", "L"); ("RGB", "RGB"); ("RGBX", "RGB");
   ("CMYK", "CMYK;I"); ("YCbCr", "YCbCr")].

Definition jpeg_writable (mode : string) : bool :=
  match dict_lookup JPEG_RAWMODE mode with Some _ => true | None => false end.

(** A writer that refuses the modes the JPEG writer refuses and otherwise
    emits a two-byte marker. *)
Definition jpeg_save (im : Image) (format : string) (quality : Z) : result bytes :=
  if jpeg_writable (im_mode im) then Return [Byte.xff; Byte.xd8]
  else Raise (mkExn OSError ("cannot write mode " ++ im_mode im ++ " as JPEG")).

Definition repr_stub (v : pyval) : string := "<" ++ type_name v ++ ">".

(** A network that always gives the same answer. *)
Definition answers (r : result Response)
  : string -> bytes -> Z -> list (string * string) -> result Response :=
  fun _ _ _ _ => r.

Definition dq : string := String (ascii_of_nat 34) EmptyString.

Definition text_upload : UploadedFile :=
  {| uf_name := "notes.png"; uf_size := 28;
     uf_data := list_byte_of_string "this is not an image at all."; uf_pos := 0 |}.

Definition png_upload : UploadedFile :=
  {| uf_name := "dot.png"; uf_size := 12;
     uf_data := (PNG_SIGNATURE ++ [Byte.x00; Byte.x00; Byte.x00; Byte.x0d])%list;
     uf_pos := 0 |}.

Definition oversized_upload : UploadedFile :=
  {| uf_name := "big.png"; uf_size := 10485761;
     uf_data := PNG_SIGNATURE; uf_pos := 0 |}.

Definition la_image : Image :=
  {| im_format := "PNG"; im_mode := "LA"; im_width := 1; im_height := 1;
     im_pixels := [128; 255] |}.

Definition rgba_image : Image :=
  {| im_format := "PNG"; im_mode := "RGBA"; im_width := 1; im_height := 1;
     im_pixels := [0; 0; 0; 255] |}.

Definition oom_response : Response :=
  {| status_code := 500;
     text := "{" ++ dq ++ "message" ++ dq ++ ": " ++ dq ++ "OOM" ++ dq ++ "}";
     json := Return (PDict [("message", PStr "OOM")]) |}.

Definition html_response : Response :=
  {| status_code := 503;
     text := "<html>Service Unavailable</html>";
     json := Raise (mkExn JSONDecodeError "Expecting value: line 1 column 1 (char 0)") |}.

Definition list_response : Response :=
  {| status_code := 200;
     text := "[1, 2]";
     json := Return (PList [PInt 1; PInt 2]) |}.

Definition null_response : Response :=
  {| status_code := 200; text := "null"; json := Return PNone |}.

Definition dog_response : Response :=
  {| status_code := 200;
     text := "{" ++ dq ++ "dog" ++ dq ++ ": 0.91}";
     json := Return (PDict [("dog", PFloat 0.91)]) |}.

Definition garbled_response : Response :=
  {| status_code := 200;
     text := "<html>OK</html>";
     json := Raise (mkExn JSONDecodeError "Expecting value: line 1 column 1 (char 0)") |}.

(** A rerun with a valid upload and the Analyze button pressed. *)
Definition click
    (net : string -> bytes -> Z -> list (string * string) -> result Response)
  : Rerun :=
  {| uploaded_file := Some png_upload; analyze_btn := true;
     network := net; elapsed := 0.25%float |}.

Definition refused
  : string -> bytes -> Z -> list (string * string) -> result Response :=
  answers (Raise (mkExn ConnectionError "Connection refused")).

(** The session after one successful analysis. *)
Definition after_success : SessionState :=
  session (run_script sniff_open read_all_verify mode_convert jpeg_save
             repr_stub initial_session (click (answers (Return dog_response)))).

Definition dog_cat_fox : Predictions :=
  [("dog", 0.91%float); ("cat", 0.05%float); ("fox", 0.04%float)].

(** A mapping whose second score is not a number, as [json()] gives for a
    body with [NaN] in it. *)
Definition dog_nan_fox : Predictions :=
  [("dog", 0.91%float); ("cat", nan); ("fox", 0.04%float)].

(** A bar in the manner of Streamlit's: an [int] from 0 to 100 is drawn, any
    other is refused. *)
Definition progress_widget (value : Z) : result unit :=
  if (0 <=? value) && (value <=? 100) then Return tt
  else Raise (mkExn OtherException
                ("Progress Value has invalid value [0, 100]: " ++ str_int value)).

(** A non-200 answer whose body is a JSON object without a [message], 313
    characters long. *)
Definition long_error_response : Response :=
  let reason := string_of_list_ascii (List.repeat "x"%char 300) in
  {| status_code := 500;
     text := "{" ++ dq ++ "error" ++ dq ++ ": " ++ dq ++ reason ++ dq ++ "}";
     json := Return (PDict [("error", PStr reason)]) |}.

(** A server that answers the status check, and one that does not. *)
Definition pong : string -> Z -> result Response :=
  fun _ _ => Return {| status_code := 200; text := "Healthy"; json :=
    Raise (mkExn JSONDecodeError "Expecting value: line 1 column 1 (char 0)") |}.

Definition silent : string -> Z -> result Response :=
  fun _ _ => Raise (mkExn ConnectionError "Connection refused").

End Doubles.

(** ** [setup_model.py]

    The script talks to torch and to the network and prints its progress.
    What it meets is the outcome of each guarded block; what it leaves is
    the lines it prints. *)

Record SetupWorld : Type := mkSetupWorld {
  (** Lines 11-15 ([resnet18], [eval], [rand], [trace], [save]): done, or the
      first exception one of them raises. *)
  trace_and_save : result unit;
  (** Line 24: [urllib.request.urlretrieve]. *)
  urlretrieve : result unit;
  (** Line 25: [os.path.exists], asked after the download returned. *)
  labels_exist : bool
}.

Definition START_LINE : string := "🚀 Starting Setup...".
Definition MODEL_SAVED_LINE : string := "✅ Model saved: resnet18.pt".
Definition LABELS_SAVED_LINE : string := "✅ Labels saved: index_to_name.json".
Definition COMPLETE_LINE : string :=
  "✨ Setup Complete! You are ready to package the model.".

(** Lines 10-18. *)
Definition setup_model_step (w : SetupWorld) : list string :=
  match trace_and_save w with
  | Return _ => [MODEL_SAVED_LINE]
  | Raise e => ["❌ Error saving model: " ++ exn_str e]
  end.

(** Lines 23-30. *)
Definition setup_labels_step (w : SetupWorld) : list string :=
  match urlretrieve w with
  | Return _ =>
      if labels_exist w then [LABELS_SAVED_LINE]
      else ["❌ Error: Download appeared to finish but file is missing."]
  | Raise e => ["❌ Failed to download labels: " ++ exn_str e]
  end.

(** The lines [setup_model.py] prints, in order. *)
Definition setup_model (w : SetupWorld) : list string :=
  ([START_LINE; "⬇️  Downloading ResNet-18 Model..."]
   ++ setup_model_step w
   ++ ["⬇️  Downloading Label Mappings..."]
   ++ setup_labels_step w
   ++ [COMPLETE_LINE])%list.


(** ** More of what the statements use *)

(** The tiers of line 345, in order. *)
Definition bucket_rank (delta : string) : Z :=
  if String.eqb delta "High" then 2
  else if String.eqb delta "Medium" then 1
  else 0.

(** The same rerun over another network. *)
Definition with_network (r : Rerun)
    (net : string -> bytes -> Z -> list (string * string) -> result Response)
  : Rerun :=
  {| uploaded_file := uploaded_file r; analyze_btn := analyze_btn r;
     network := net; elapsed := elapsed r |}.

(** A network that answers at the inference endpoint only. *)
Definition only_at_endpoint (r : result Response)
  : string -> bytes -> Z -> list (string * string) -> result Response :=
  fun url _ _ _ =>
    if String.eqb url TORCHSERVE_URL then r
    else Raise (mkExn ConnectionError "no route to host").

(** A non-200 answer whose body is a JSON object without a [message]. *)
Definition teapot_response : Response :=
  {| status_code := 418;
     text := "{" ++ Doubles.dq ++ "error" ++ Doubles.dq ++ ": " ++ Doubles.dq
             ++ "short and stout" ++ Doubles.dq ++ "}";
     json := Return (PDict [("error", PStr "short and stout")]) |}.

(** A rerun with a valid upload and no click. *)
Definition no_click : Rerun :=
  {| uploaded_file := Some Doubles.png_upload; analyze_btn := false;
     network := Doubles.refused; elapsed := 0%float |}.

(** * Properties *)

Import Doubles.

(** ** Strings *)

Lemma prefix_app (s t : string) : prefix s (s ++ t) = true.
Proof.
  induction s as [|c s IH]; simpl.
  - destruct t; reflexivity.
  - destruct (ascii_dec c c) as [_|n]; [exact IH | now elim n].
Qed.

Lemma contains_unfold (needle hay : string) :
  contains needle hay =
  prefix needle hay ||
  match hay with
  | EmptyString => false
  | String _ hay' => contains needle hay'
  end.
Proof. destruct hay; reflexivity. Qed.

Lemma contains_app (a s b : string) : contains s (a ++ s ++ b) = true.
Proof.
  induction a as [|c a IH]; simpl append.
  - rewrite contains_unfold, prefix_app. reflexivity.
  - rewrite contains_unfold, IH. apply orb_true_r.
Qed.

Lemma contains_suffix (a s : string) : contains s (a ++ s) = true.
Proof.
  assert (E : s = s ++ "") by (induction s; simpl; congruence).
  rewrite E at 2. apply contains_app.
Qed.

(** [s[:n]] is a prefix of [s]. *)
Lemma slice_to_prefix (n : nat) (s : string) :
  exists rest, s = slice_to n s ++ rest.
Proof.
  unfold slice_to. revert n.
  induction s as [|c s IH]; intros [|n]; simpl.
  - now exists "".
  - now exists "".
  - now exists (String c s).
  - destruct (IH n) as [rest E]. exists rest. now rewrite <- E.
Qed.

Lemma slice_to_length_min (n : nat) (s : string) :
  String.length (slice_to n s) = Nat.min n (String.length s).
Proof.
  unfold slice_to. revert n. induction s as [|c s IH]; intros [|n];
    cbn [substring String.length Nat.min]; try reflexivity.
  now rewrite IH.
Qed.

(** ** The inference client *)

Section InferenceFacts.

Variable requests_post :
  string -> bytes -> Z -> list (string * string) -> result Response.
Variable py_repr : pyval -> string.
Variable image_bytes : bytes.

Let the_call : result Response :=
  requests_post TORCHSERVE_URL image_bytes REQUEST_TIMEOUT
    [("Content-Type", "application/octet-stream")].

Lemma get_predictions_raised (e : PyExn) :
  the_call = Raise e ->
  get_predictions requests_post py_repr image_bytes = get_predictions_handler e.
Proof. unfold get_predictions, the_call. intros ->. reflexivity. Qed.

Lemma get_predictions_non_200 (response : Response) :
  the_call = Return response ->
  status_code response <> 200 ->
  get_predictions requests_post py_repr image_bytes =
  Return (false, PNone, Some (server_error_msg py_repr response)).
Proof.
  unfold get_predictions, the_call. intros -> Hs. simpl.
  apply Z.eqb_neq in Hs. rewrite Hs. reflexivity.
Qed.

Lemma get_predictions_200 (response : Response) :
  the_call = Return response ->
  status_code response = 200 ->
  get_predictions requests_post py_repr image_bytes =
  match json response with
  | Return v => Return (true, v, None)
  | Raise e => get_predictions_handler e
  end.
Proof.
  unfold get_predictions, the_call. intros -> Hs. simpl.
  rewrite Hs. simpl. destruct (json response); reflexivity.
Qed.

(** The three shapes of the message of a non-200 answer. *)
Lemma server_error_msg_cases (response : Response) :
  server_error_msg py_repr response =
  "Server returned status " ++ str_int (status_code response) ++ ": " ++
  match json response with
  | Return (PDict d) =>
      match dict_lookup d "message" with
      | Some v => py_str py_repr v
      | None => text response
      end
  | _ => slice_to 200 (text response)
  end.
Proof.
  unfold server_error_msg.
  destruct (json response) as [v|e]; simpl; [|reflexivity].
  destruct v; simpl; try reflexivity.
  destruct (dict_lookup d "message"); reflexivity.
Qed.

Lemma handler_returns (e : PyExn) :
  exists msg, get_predictions_handler e = Return (false, PNone, Some msg).
Proof.
  unfold get_predictions_handler.
  destruct (isinstance_ConnectionError e); [eexists; reflexivity|].
  destruct (isinstance_Timeout e); eexists; reflexivity.
Qed.

End InferenceFacts.

(** C4, as the claim states it, fails: a non-200 answer whose body is a
    JSON object without a [message] field is not cut to its first 200
    characters; the whole body, here 313 characters, follows the status. *)
Lemma get_predictions_long_error_body :
  status_code long_error_response <> 200 /\
  message_field long_error_response = None /\
  String.length (text long_error_response) = 313%nat /\
  get_predictions (answers (Return long_error_response)) repr_stub [] =
    Return (false, PNone,
            Some ("Server returned status 500: " ++ text long_error_response)) /\
  get_predictions (answers (Return long_error_response)) repr_stub [] <>
    Return (false, PNone,
            Some ("Server returned status 500: " ++
                  slice_to 200 (text long_error_response))).
Proof.
  split; [discriminate|]. split; [reflexivity|]. split; [reflexivity|].
  split; [reflexivity|].
  intros H. apply (f_equal (fun t => match t with
                                     | Return (_, _, Some msg) => String.length msg
                                     | _ => O
                                     end)) in H.
  vm_compute in H. discriminate H.
Qed.

(** C4.  A non-200 answer gives [(False, None, msg)], where [msg] is
    "Server returned status ", the status code, ": " and a detail.  The
    detail is the text of the [message] field when the body parses as a
    JSON object that has one; the whole body when it parses as a JSON
    object that has none; and the first 200 characters of the body (all of
    it when it is shorter) when it does not parse as a JSON object. *)
Theorem get_predictions_server_error
    (requests_post : string -> bytes -> Z -> list (string * string) -> result Response)
    (py_repr : pyval -> string) (image_bytes : bytes) (response : Response) :
  requests_post TORCHSERVE_URL image_bytes REQUEST_TIMEOUT
    [("Content-Type", "application/octet-stream")] = Return response ->
  status_code response <> 200 ->
  exists detail,
    get_predictions requests_post py_repr image_bytes =
      Return (false, PNone,
              Some ("Server returned status " ++ str_int (status_code response)
                    ++ ": " ++ detail)) /\
    (forall v, message_field response = Some v -> detail = py_str py_repr v) /\
    (forall d, json response = Return (PDict d) ->
               message_field response = None -> detail = text response) /\
    ((forall d, json response <> Return (PDict d)) ->
     (exists rest, text response = detail ++ rest) /\
     String.length detail = Nat.min 200 (String.length (text response))).
Proof.
  intros Hcall Hs.
  rewrite (get_predictions_non_200 _ py_repr _ _ Hcall Hs),
    server_error_msg_cases.
  unfold message_field.
  destruct (json response) as [v|e].
  - destruct v as [| | | | | |d];
      try (eexists; split; [reflexivity|];
           split; [discriminate|]; split; [discriminate|];
           intros _; split;
           [apply slice_to_prefix | apply slice_to_length_min]).
    destruct (dict_lookup d "message") as [v|] eqn:L.
    + eexists; split; [reflexivity|]. split; [now intros v' [= <-]|].
      split; [discriminate|]. intros H. now destruct (H d).
    + eexists; split; [reflexivity|]. split; [discriminate|].
      split; [reflexivity|]. intros H. now destruct (H d).
  - eexists; split; [reflexivity|].
    split; [discriminate|]. split; [discriminate|].
    intros _; split; [apply slice_to_prefix | apply slice_to_length_min].
Qed.

Lemma get_predictions_server_error_witness :
  exists detail,
    get_predictions (answers (Return oom_response)) repr_stub [] =
      Return (false, PNone, Some ("Server returned status 500: " ++ detail)) /\
    detail = "OOM".
Proof.
  destruct (get_predictions_server_error (answers (Return oom_response))
              repr_stub [] oom_response) as [detail [E [M _]]].
  - reflexivity.
  - simpl. lia.
  - exists detail. split; [exact E|]. exact (M (PStr "OOM") eq_refl).
Defined.

(** The answer of the mocked HTTP 500 with body [{message: OOM}]. *)
Example get_predictions_oom :
  get_predictions (answers (Return oom_response)) repr_stub [] =
  Return (false, PNone, Some "Server returned status 500: OOM").
Proof. reflexivity. Qed.

(** A non-200 answer whose body is not JSON: the first 200 characters of
    the body follow the status. *)
Example get_predictions_html_503 :
  get_predictions (answers (Return html_response)) repr_stub [] =
  Return (false, PNone,
          Some "Server returned status 503: <html>Service Unavailable</html>").
Proof. reflexivity. Qed.

(** The three handlers: a refused connection, a connect timeout (caught as
    a connection error, the first handler) and a read timeout. *)
Example get_predictions_transport_errors :
  let unreachable :=
    Return (false, PNone,
            Some "Cannot connect to TorchServe. Please ensure Docker container is running on port 8080.") in
  (get_predictions refused repr_stub [] = unreachable) /\
  (get_predictions (answers (Raise (mkExn ConnectTimeout "timed out")))
     repr_stub [] = unreachable) /\
  (get_predictions (answers (Raise (mkExn ReadTimeout "timed out")))
     repr_stub [] =
   Return (false, PNone, Some "Request timed out after 30 seconds.")).
Proof. repeat split. Qed.

(** C7, as the claim states it, fails: a 200 answer whose body is JSON but
    not an object of label scores does not give a failure; it comes back as
    a success carrying that value. *)
Lemma get_predictions_accepts_a_list :
  status_code list_response = 200 /\
  label_scores_body list_response = false /\
  get_predictions (answers (Return list_response)) repr_stub [] =
    Return (true, PList [PInt 1; PInt 2], None) /\
  ~ (exists msg,
       get_predictions (answers (Return list_response)) repr_stub [] =
         Return (false, PNone, Some msg)).
Proof.
  repeat split. intros [msg H]. discriminate H.
Qed.

(** C7, amended.  On a 200 answer, a body that is not JSON (so that [json()]
    raises [JSONDecodeError]) gives [(False, None, "Unexpected error: ...")]
    and nothing is raised; a body that is JSON is returned as a success with
    the parsed value as it is, whatever its shape. *)
Theorem get_predictions_status_200
    (requests_post : string -> bytes -> Z -> list (string * string) -> result Response)
    (py_repr : pyval -> string) (image_bytes : bytes) (response : Response) :
  requests_post TORCHSERVE_URL image_bytes REQUEST_TIMEOUT
    [("Content-Type", "application/octet-stream")] = Return response ->
  status_code response = 200 ->
  match json response with
  | Return v =>
      get_predictions requests_post py_repr image_bytes = Return (true, v, None)
  | Raise e =>
      exn_class e = JSONDecodeError ->
      get_predictions requests_post py_repr image_bytes =
        Return (false, PNone, Some ("Unexpected error: " ++ exn_str e))
  end.
Proof.
  intros Hcall Hs.
  rewrite (get_predictions_200 _ _ _ _ Hcall Hs).
  destruct (json response) as [v|e]; [reflexivity|].
  intros Hc. unfold get_predictions_handler, isinstance_ConnectionError,
    isinstance_Timeout. rewrite Hc. reflexivity.
Qed.

Lemma get_predictions_status_200_witness :
  get_predictions (answers (Return garbled_response)) repr_stub [] =
    Return (false, PNone,
            Some "Unexpected error: Expecting value: line 1 column 1 (char 0)") /\
  get_predictions (answers (Return dog_response)) repr_stub [] =
    Return (true, PDict [("dog", PFloat 0.91)], None).
Proof.
  split.
  - exact (get_predictions_status_200 (answers (Return garbled_response))
             repr_stub [] garbled_response eq_refl eq_refl eq_refl).
  - exact (get_predictions_status_200 (answers (Return dog_response))
             repr_stub [] dog_response eq_refl eq_refl).
Defined.

(** C10, as the claim states it, fails: on a 200 answer whose body is the
    JSON literal [null] the flag is [True] while the predictions are
    [None]. *)
Lemma get_predictions_null_body :
  get_predictions (answers (Return null_response)) repr_stub [] =
    Return (true, PNone, None) /\
  ~ (exists t,
       get_predictions (answers (Return null_response)) repr_stub [] = Return t /\
       consistent_triple t).
Proof.
  split; [reflexivity|].
  intros [t [E C]]. injection E as <-. destruct C as [[H _] _].
  specialize (H eq_refl). discriminate.
Qed.

(** C10, amended.  Whatever the network does, [get_predictions] returns a
    triple and raises nothing; the flag is [True] exactly when the message is
    [None]; predictions other than [None] come only with a [True] flag; and
    a [True] flag comes only with a 200 answer, the predictions being what
    [json()] gave for it. *)
Theorem get_predictions_total
    (requests_post : string -> bytes -> Z -> list (string * string) -> result Response)
    (py_repr : pyval -> string) (image_bytes : bytes) :
  exists success preds err,
    get_predictions requests_post py_repr image_bytes =
      Return (success, preds, err) /\
    (success = true <-> err = None) /\
    (is_None preds = false -> success = true) /\
    (success = true ->
     exists response,
       requests_post TORCHSERVE_URL image_bytes REQUEST_TIMEOUT
         [("Content-Type", "application/octet-stream")] = Return response /\
       status_code response = 200 /\
       json response = Return preds).
Proof.
  destruct (requests_post TORCHSERVE_URL image_bytes REQUEST_TIMEOUT
              [("Content-Type", "application/octet-stream")])
    as [response|e] eqn:Hcall.
  - destruct (Z.eq_dec (status_code response) 200) as [Hs|Hs].
    + rewrite (get_predictions_200 _ _ _ _ Hcall Hs).
      destruct (json response) as [v|e] eqn:Hj.
      * exists true, v, None. repeat split; auto.
        intros _. exists response. auto.
      * destruct (handler_returns e) as [msg ->].
        exists false, PNone, (Some msg).
        repeat split; try discriminate.
    + rewrite (get_predictions_non_200 _ _ _ _ Hcall Hs).
      exists false, PNone, (Some (server_error_msg py_repr response)).
      repeat split; try discriminate.
  - rewrite (get_predictions_raised _ _ _ _ Hcall).
    destruct (handler_returns e) as [msg ->].
    exists false, PNone, (Some msg).
    repeat split; try discriminate.
Qed.

(** ** The image stages *)

Section ImageFacts.

Variable Image_open : UploadedFile -> result Image * UploadedFile.
Variable Image_verify : Image -> UploadedFile -> result unit * UploadedFile.
Variable Image_convert : Image -> string -> Image.
Variable Image_save : Image -> string -> Z -> result bytes.

Lemma validate_image_within_limit (f : UploadedFile) :
  uf_size f <= MAX_FILE_SIZE ->
  validate_image Image_open Image_verify f =
  match decode_attempt Image_open Image_verify f with
  | (Raise e, f') => ((false, Some ("Invalid image file: " ++ exn_str e)), f')
  | (Return _, f') => ((true, None), seek f' 0)
  end.
Proof.
  intros Hsize. unfold validate_image, decode_attempt.
  destruct (uf_size f >? MAX_FILE_SIZE) eqn:E.
  - rewrite Z.gtb_ltb, Z.ltb_lt in E. lia.
  - destruct (Image_open f) as [[image|e] f1]; [|reflexivity].
    destruct (Image_verify image f1) as [[u|e] f2]; reflexivity.
Qed.

Lemma preprocess_image_RGBA (image : Image) :
  im_mode image = "RGBA" ->
  preprocess_image Image_convert Image_save image =
  Image_save (Image_convert image "RGB") "JPEG" 95.
Proof. unfold preprocess_image. intros ->. reflexivity. Qed.

Lemma preprocess_image_other (image : Image) :
  im_mode image <> "RGBA" ->
  preprocess_image Image_convert Image_save image = Image_save image "JPEG" 95.
Proof.
  unfold preprocess_image. intros H.
  apply String.eqb_neq in H. rewrite H. reflexivity.
Qed.

End ImageFacts.

(** C3.  An upload whose size is above [MAX_FILE_SIZE] (10 MiB) is rejected
    with the size message whatever its content: the answer does not depend
    on the decoder, and the stream is handed back untouched. *)
Theorem validate_image_size_limit
    (Image_open : UploadedFile -> result Image * UploadedFile)
    (Image_verify : Image -> UploadedFile -> result unit * UploadedFile)
    (f : UploadedFile) :
  uf_size f > MAX_FILE_SIZE ->
  MAX_FILE_SIZE = 10485760 /\
  validate_image Image_open Image_verify f =
    ((false, Some "File size exceeds 10MB limit."), f).
Proof.
  intros H. split; [reflexivity|].
  unfold validate_image.
  destruct (uf_size f >? MAX_FILE_SIZE) eqn:E; [reflexivity|].
  rewrite Z.gtb_ltb, Z.ltb_ge in E. lia.
Qed.

Lemma validate_image_size_limit_witness :
  validate_image sniff_open read_all_verify oversized_upload =
    ((false, Some "File size exceeds 10MB limit."), oversized_upload).
Proof.
  apply (validate_image_size_limit sniff_open read_all_verify oversized_upload).
  reflexivity.
Defined.

(** C1, as the claim states it, fails: with an opener that reads a prefix
    before it gives up, an upload that is not an image is rejected with the
    decoder's message, but its stream is left after the prefix, not where it
    was. *)
Lemma validate_image_leaves_stream_moved :
  decodable sniff_open read_all_verify text_upload = false /\
  fst (validate_image sniff_open read_all_verify text_upload) =
    (false, Some "Invalid image file: cannot identify image file") /\
  uf_pos text_upload = 0 /\
  uf_pos (snd (validate_image sniff_open read_all_verify text_upload)) = 16 /\
  uf_pos (snd (validate_image sniff_open read_all_verify text_upload)) <>
    uf_pos text_upload.
Proof. repeat split. discriminate. Qed.

(** With an opener that leaves the stream alone, the same upload is
    rejected with the stream where it was: what happens to the position after
    a failed decode is the decoder's doing, not [validate_image]'s. *)
Example validate_image_still_decoder :
  validate_image still_open still_verify text_upload =
    ((false, Some "Invalid image file: cannot identify image file"), text_upload).
Proof. reflexivity. Qed.

(** An upload above the limit that is not an image either gets the size
    message, not the decoder's. *)
Example validate_image_oversized_text :
  let f := {| uf_name := "big.txt"; uf_size := 10485761;
              uf_data := uf_data text_upload; uf_pos := 0 |} in
  decodable sniff_open read_all_verify f = false /\
  validate_image sniff_open read_all_verify f =
    ((false, Some "File size exceeds 10MB limit."), f).
Proof. split; reflexivity. Qed.

(** C1, amended.  For an upload within the size limit: when the verify-only
    decode raises, the answer is [(False, "Invalid image file: " + str(e))];
    when it succeeds, the answer is [(True, None)] and the stream is rewound
    to position 0 for the stages that follow. *)
Theorem validate_image_decode
    (Image_open : UploadedFile -> result Image * UploadedFile)
    (Image_verify : Image -> UploadedFile -> result unit * UploadedFile)
    (f : UploadedFile) :
  uf_size f <= MAX_FILE_SIZE ->
  match decode_attempt Image_open Image_verify f with
  | (Raise e, _) =>
      fst (validate_image Image_open Image_verify f) =
        (false, Some ("Invalid image file: " ++ exn_str e))
  | (Return _, _) =>
      fst (validate_image Image_open Image_verify f) = (true, None) /\
      uf_pos (snd (validate_image Image_open Image_verify f)) = 0
  end.
Proof.
  intros H. rewrite (validate_image_within_limit _ _ _ H).
  destruct (decode_attempt Image_open Image_verify f) as [[u|e] f'];
    simpl; auto.
Qed.

Lemma validate_image_decode_witness :
  fst (validate_image sniff_open read_all_verify text_upload) =
    (false, Some "Invalid image file: cannot identify image file") /\
  (fst (validate_image sniff_open read_all_verify png_upload) = (true, None) /\
   uf_pos (snd (validate_image sniff_open read_all_verify png_upload)) = 0).
Proof.
  split.
  - apply (validate_image_decode sniff_open read_all_verify text_upload).
    unfold MAX_FILE_SIZE. simpl. lia.
  - apply (validate_image_decode sniff_open read_all_verify png_upload).
    unfold MAX_FILE_SIZE. simpl. lia.
Defined.

(** C2 at the failing input.  An image in mode [LA] is handed to the JPEG
    writer as it is, whatever [convert] and [save] are; with a writer that
    accepts the modes Pillow's JPEG writer accepts, no bytes come back: the
    call raises. *)
Theorem preprocess_image_LA :
  (forall (Image_convert : Image -> string -> Image)
          (Image_save : Image -> string -> Z -> result bytes),
     preprocess_image Image_convert Image_save la_image =
     Image_save la_image "JPEG" 95) /\
  im_mode la_image = "LA" /\
  preprocess_image mode_convert jpeg_save la_image =
    Raise (mkExn OSError "cannot write mode LA as JPEG").
Proof. repeat split. Qed.

(** The case the code does handle: an [RGBA] image is converted first. *)
Example preprocess_image_rgba_image :
  preprocess_image mode_convert jpeg_save rgba_image = Return [Byte.xff; Byte.xd8].
Proof. reflexivity. Qed.

(** ** Comparison of doubles *)

Lemma SFcompare_antisym (x y : spec_float) (c : comparison) :
  SFcompare x y = Some c -> SFcompare y x = Some (CompOpp c).
Proof.
  destruct x as [sx|sx| |sx mx ex], y as [sy|sy| |sy my ey]; unfold SFcompare;
    try discriminate;
    try (destruct sx); try (destruct sy);
    try (intros [= <-]; reflexivity).
  all: change (PosDef.Pos.compare_cont Eq my mx) with (Pos.compare my mx);
       change (PosDef.Pos.compare_cont Eq mx my) with (Pos.compare mx my);
       rewrite (Z.compare_antisym ex ey), (Pos.compare_antisym mx my);
       destruct (Z.compare ex ey), (Pos.compare mx my); cbn [CompOpp];
       intros [= <-]; reflexivity.
Qed.

Lemma SFcompare_total (x y : spec_float) :
  x <> S754_nan -> y <> S754_nan -> exists c, SFcompare x y = Some c.
Proof.
  destruct x, y; unfold SFcompare; try congruence; intros _ _; eexists; reflexivity.
Qed.

(** Away from nan, [y < x] is the negation of [x <= y]. *)
Lemma SFltb_negb_leb (x y : spec_float) :
  x <> S754_nan -> y <> S754_nan -> SFltb y x = negb (SFleb x y).
Proof.
  intros Hx Hy. destruct (SFcompare_total x y Hx Hy) as [c E].
  unfold SFltb, SFleb. rewrite (SFcompare_antisym _ _ _ E), E.
  destruct c; reflexivity.
Qed.

(** What is at most 0.4 is not above 0.7. *)
Lemma SFleb_0_4_not_above_0_7 (x : spec_float) :
  SFleb x double_0_4 = true -> SFltb double_0_7 x = false.
Proof.
  unfold SFleb, SFltb, SFcompare, double_0_4, double_0_7.
  destruct x as [s|s| |s m e]; try (destruct s); try reflexivity; try discriminate.
  destruct (Z.compare_spec e (-54)), (Z.compare_spec (-53) e); try lia;
    try reflexivity; try discriminate.
Qed.

Lemma Prim2SF_0_7 : Prim2SF 0.7 = double_0_7.
Proof. reflexivity. Qed.

Lemma Prim2SF_0_4 : Prim2SF 0.4 = double_0_4.
Proof. reflexivity. Qed.

Lemma not_nan_Prim2SF (c : float) : is_nan c = false -> Prim2SF c <> S754_nan.
Proof.
  unfold is_nan. rewrite eqb_spec. intros H E. rewrite E in H. discriminate H.
Qed.

Lemma leb_negb_ltb (c k : float) :
  is_nan c = false -> is_nan k = false -> (c <=? k)%float = negb (k <? c)%float.
Proof.
  intros Hc Hk. apply not_nan_Prim2SF in Hc, Hk.
  rewrite ltb_spec, leb_spec, (SFltb_negb_leb _ _ Hc Hk).
  now rewrite negb_involutive.
Qed.

(** ** The result formatter *)

(** C5.  For a confidence that is a number (not nan), the delta is "High"
    exactly when it is above 0.7, "Medium" exactly when it is above 0.4 and
    at most 0.7, and "Low" exactly when it is at most 0.4; 0.4 itself is
    "Low" and 0.7 itself is "Medium". *)
Theorem confidence_delta_buckets (c : float) :
  is_nan c = false ->
  (confidence_delta c = "High" <-> (0.7 <? c)%float = true) /\
  (confidence_delta c = "Medium" <->
     (0.4 <? c)%float = true /\ (c <=? 0.7)%float = true) /\
  (confidence_delta c = "Low" <-> (c <=? 0.4)%float = true) /\
  confidence_delta 0.4 = "Low" /\
  confidence_delta 0.7 = "Medium".
Proof.
  intros Hnan.
  assert (H7 : (c <=? 0.7)%float = negb (0.7 <? c)%float)
    by (now apply leb_negb_ltb).
  assert (H4 : (c <=? 0.4)%float = negb (0.4 <? c)%float)
    by (now apply leb_negb_ltb).
  assert (H47 : (c <=? 0.4)%float = true -> (0.7 <? c)%float = false).
  { rewrite ltb_spec, leb_spec, Prim2SF_0_7, Prim2SF_0_4.
    apply SFleb_0_4_not_above_0_7. }
  unfold confidence_delta. rewrite H7, H4. rewrite H4 in H47.
  destruct (0.7 <? c)%float, (0.4 <? c)%float; simpl in *;
    repeat split; intros; try discriminate; try reflexivity; auto;
    try (specialize (H47 eq_refl); discriminate);
    try (destruct H; discriminate).
Qed.

Lemma confidence_delta_buckets_witness :
  confidence_delta 0.0401 = "Low" <-> (0.0401 <=? 0.4)%float = true.
Proof.
  apply (confidence_delta_buckets 0.0401). reflexivity.
Defined.

(** The values of the spec's example. *)
Example confidence_delta_examples :
  confidence_delta 0.91 = "High" /\ confidence_delta 0.0401 = "Low" /\
  confidence_delta 0.4 = "Low" /\ confidence_delta 0.7 = "Medium".
Proof. repeat split. Qed.

(** ** Decimal rendering *)

Lemma all_digits_app (a b : string) :
  all_digits (a ++ b) = all_digits a && all_digits b.
Proof.
  induction a as [|c a IH]; simpl; [reflexivity|].
  now rewrite IH, andb_assoc.
Qed.

Lemma string_length_app (a b : string) :
  String.length (a ++ b) = (String.length a + String.length b)%nat.
Proof. induction a; simpl; congruence. Qed.

Lemma digit_char_cases (d : Z) :
  0 <= d < 10 ->
  is_digit (digit_char d) = true /\
  Z.of_nat (nat_of_ascii (digit_char d)) - 48 = d.
Proof.
  intros H.
  assert (C : d = 0 \/ d = 1 \/ d = 2 \/ d = 3 \/ d = 4 \/ d = 5 \/ d = 6 \/
              d = 7 \/ d = 8 \/ d = 9) by lia.
  repeat (destruct C as [-> | C]; [split; reflexivity|]).
  subst. split; reflexivity.
Qed.

Lemma is_digit_digit_char (d : Z) : 0 <= d < 10 -> is_digit (digit_char d) = true.
Proof. intros H. apply (digit_char_cases d H). Qed.

Lemma all_digits_fixed_digits (k : nat) (n : Z) :
  all_digits (fixed_digits k n) = true.
Proof.
  revert n. induction k as [|k IH]; intros n; cbn [fixed_digits]; [reflexivity|].
  rewrite all_digits_app, IH. cbn [all_digits andb].
  rewrite is_digit_digit_char; [reflexivity|].
  apply Z.mod_pos_bound. lia.
Qed.

Lemma length_fixed_digits (k : nat) (n : Z) :
  String.length (fixed_digits k n) = k.
Proof.
  revert n. induction k as [|k IH]; intros n; cbn [fixed_digits]; [reflexivity|].
  rewrite string_length_app, IH. cbn [String.length]. lia.
Qed.

Lemma all_digits_string_of_uint (d : Decimal.uint) :
  all_digits (NilEmpty.string_of_uint d) = true.
Proof. induction d; simpl; auto. Qed.

Lemma all_digits_str_int (z : Z) : 0 <= z -> all_digits (str_int z) = true.
Proof.
  intros H. unfold str_int.
  destruct z as [|p|p]; [reflexivity| |lia].
  simpl. unfold NilZero.string_of_uint.
  destruct (Pos.to_uint p) eqn:E; try reflexivity;
    rewrite <- E; apply all_digits_string_of_uint.
Qed.

(** *** Reading the digits back *)

Lemma decimal_value_from_app (acc : Z) (a b : string) :
  decimal_value_from acc (a ++ b) =
  decimal_value_from (decimal_value_from acc a) b.
Proof.
  revert acc. induction a as [|c a IH]; intros acc; [reflexivity|].
  cbn [append decimal_value_from]. apply IH.
Qed.

Lemma decimal_value_fixed_digits (k : nat) (acc r : Z) :
  decimal_value_from acc (fixed_digits k r) =
  acc * 10 ^ Z.of_nat k + r mod 10 ^ Z.of_nat k.
Proof.
  revert acc r. induction k as [|k IH]; intros acc r.
  - cbn [fixed_digits decimal_value_from]. change (10 ^ Z.of_nat 0) with 1.
    rewrite Z.mod_1_r. lia.
  - cbn [fixed_digits]. rewrite decimal_value_from_app, IH.
    cbn [decimal_value_from].
    rewrite (proj2 (digit_char_cases (r mod 10)
                      (Z.mod_pos_bound r 10 ltac:(lia)))).
    rewrite Nat2Z.inj_succ, Z.pow_succ_r by lia.
    assert (P : 0 < 10 ^ Z.of_nat k) by (apply Z.pow_pos_nonneg; lia).
    rewrite (Z.rem_mul_r r 10 (10 ^ Z.of_nat k)) by lia.
    lia.
Qed.

Lemma decimal_value_of_uint_acc (d : Decimal.uint) (acc : positive) :
  decimal_value_from (Z.pos acc) (NilEmpty.string_of_uint d) =
  Z.pos (Pos.of_uint_acc d acc).
Proof.
  revert acc. induction d as [|d IH|d IH|d IH|d IH|d IH|d IH|d IH|d IH|d IH|d IH];
    intros acc; [reflexivity|..];
    cbn [NilEmpty.string_of_uint decimal_value_from Pos.of_uint_acc];
    rewrite <- IH; f_equal;
    match goal with
    | |- context [Z.of_nat (nat_of_ascii ?c)] =>
        let v := eval vm_compute in (Z.of_nat (nat_of_ascii c)) in
        change (Z.of_nat (nat_of_ascii c)) with v
    end; lia.
Qed.

Lemma decimal_value_of_uint (d : Decimal.uint) :
  decimal_value_from 0 (NilEmpty.string_of_uint d) = Z.of_N (Pos.of_uint d).
Proof.
  induction d as [|d IH|d IH|d IH|d IH|d IH|d IH|d IH|d IH|d IH|d IH];
    [reflexivity|exact IH|..];
    cbn [NilEmpty.string_of_uint decimal_value_from Pos.of_uint Z.of_N];
    rewrite <- decimal_value_of_uint_acc; reflexivity.
Qed.

Lemma string_of_to_uint (p : positive) :
  NilZero.string_of_uint (Pos.to_uint p) = NilEmpty.string_of_uint (Pos.to_uint p).
Proof.
  unfold NilZero.string_of_uint.
  destruct (Pos.to_uint p) eqn:E; try reflexivity.
  now destruct (DecimalPos.Unsigned.to_uint_nonnil p).
Qed.

Lemma decimal_value_str_int (z : Z) : 0 <= z -> decimal_value (str_int z) = z.
Proof.
  intros H. unfold str_int, decimal_value.
  destruct z as [|p|p]; [reflexivity| |lia].
  cbn [Z.to_int NilZero.string_of_int].
  rewrite string_of_to_uint, decimal_value_of_uint,
    DecimalPos.Unsigned.of_to. reflexivity.
Qed.

Lemma to_uint_no_leading_zero (p : positive) (d : Decimal.uint) :
  Pos.to_uint p <> Decimal.D0 d.
Proof.
  assert (U : Decimal.unorm (Pos.to_uint p) = Pos.to_uint p).
  { rewrite <- DecimalPos.Unsigned.to_of, DecimalPos.Unsigned.of_to.
    reflexivity. }
  destruct (Decimal.uint_eq_dec (Decimal.nzhead (Pos.to_uint p)) Decimal.Nil)
    as [N|N].
  - apply DecimalFacts.unorm_0 in N. rewrite U in N.
    now destruct (DecimalPos.Unsigned.to_uint_nonzero p).
  - apply DecimalFacts.unorm_nzhead in N. rewrite U in N. rewrite N.
    apply DecimalFacts.nzhead_nonzero.
Qed.

Lemma no_leading_zero_str_int (z : Z) :
  0 <= z -> no_leading_zero (str_int z) = true.
Proof.
  intros H. unfold str_int.
  destruct z as [|p|p]; [reflexivity| |lia].
  cbn [Z.to_int NilZero.string_of_int]. rewrite string_of_to_uint.
  pose proof (to_uint_no_leading_zero p) as Z0.
  pose proof (DecimalPos.Unsigned.to_uint_nonnil p) as N0.
  destruct (Pos.to_uint p) as [|d|d|d|d|d|d|d|d|d|d];
    try (now destruct N0); try (now destruct (Z0 d));
    cbn [NilEmpty.string_of_uint no_leading_zero];
    destruct (NilEmpty.string_of_uint d); reflexivity.
Qed.

Lemma scaled_den_pos (e : Z) : 0 < scaled_den e.
Proof. unfold scaled_den. apply Z.pow_pos_nonneg; lia. Qed.

Lemma scaled_num_nonneg (prec : nat) (m e : Z) : 0 <= m -> 0 <= scaled_num prec m e.
Proof.
  intros H. unfold scaled_num.
  assert (0 < 10 ^ Z.of_nat prec) by (apply Z.pow_pos_nonneg; lia).
  assert (0 < 2 ^ Z.max 0 e) by (apply Z.pow_pos_nonneg; lia).
  nia.
Qed.

Lemma round_half_even_nearest (num den : Z) :
  0 <= num -> 0 < den ->
  0 <= round_half_even num den /\
  2 * Z.abs (num - round_half_even num den * den) <= den /\
  (2 * Z.abs (num - round_half_even num den * den) = den ->
   Z.even (round_half_even num den) = true).
Proof.
  intros Hn Hd. unfold round_half_even.
  pose proof (Z.div_mod num den ltac:(lia)) as E.
  pose proof (Z.mod_pos_bound num den Hd) as B.
  assert (Q : 0 <= num / den) by (apply Z.div_pos; lia).
  set (q := num / den) in *. set (r := num mod den) in *.
  assert (Eq' : num - q * den = r) by lia.
  assert (Eq1 : num - (q + 1) * den = r - den) by lia.
  destruct (2 * r <? den) eqn:C1; [apply Z.ltb_lt in C1|apply Z.ltb_ge in C1].
  - rewrite Eq'. repeat split; lia.
  - destruct (den <? 2 * r) eqn:C2; [apply Z.ltb_lt in C2|apply Z.ltb_ge in C2].
    + rewrite Eq1. repeat split; lia.
    + destruct (Z.even q) eqn:Ev; [rewrite Eq'|rewrite Eq1];
        repeat split; try lia; intros _; [exact Ev|].
      rewrite Z.add_1_r, Z.even_succ, <- Z.negb_even, Ev. reflexivity.
Qed.

Lemma fixed_point_rendered (p : nat) (s : bool) (m e n : Z) :
  0 <= n ->
  2 * Z.abs (scaled_num (S p) m e - n * scaled_den e) <= scaled_den e ->
  (2 * Z.abs (scaled_num (S p) m e - n * scaled_den e) = scaled_den e ->
   Z.even n = true) ->
  rendered (S p) s m e (sign_str s ++ fixed_point (S p) n).
Proof.
  intros N0 N1 N2.
  assert (P : 0 < 10 ^ Z.of_nat (S p)) by (apply Z.pow_pos_nonneg; lia).
  assert (Q : 0 <= n / 10 ^ Z.of_nat (S p)) by (apply Z.div_pos; lia).
  exists n, (str_int (n / 10 ^ Z.of_nat (S p))),
    (fixed_digits (S p) (n mod 10 ^ Z.of_nat (S p))).
  unfold fixed_point. repeat split; auto.
  - now apply all_digits_str_int.
  - now apply no_leading_zero_str_int.
  - apply all_digits_fixed_digits.
  - apply length_fixed_digits.
  - unfold decimal_value.
    rewrite decimal_value_from_app, decimal_value_fixed_digits.
    fold (decimal_value (str_int (n / 10 ^ Z.of_nat (S p)))).
    rewrite decimal_value_str_int by assumption.
    rewrite Z.mod_mod by lia.
    pose proof (Z.div_mod n (10 ^ Z.of_nat (S p)) ltac:(lia)). lia.
Qed.

Lemma format_f_rendered (p : nat) (x : float) (s : bool) (m e : Z) :
  finite_parts x = Some (s, m, e) ->
  rendered (S p) s m e (format_f (S p) x).
Proof.
  unfold finite_parts, format_f.
  destruct (Prim2SF x) as [s'|s'| |s' m' e']; try discriminate; intros [= <- <- <-].
  - pose proof (scaled_den_pos 0) as D.
    assert (Z0 : scaled_num (S p) 0 0 = 0) by (unfold scaled_num; lia).
    apply fixed_point_rendered; rewrite ?Z0; [lia|lia|reflexivity].
  - destruct (round_half_even_nearest (scaled_num (S p) (Z.pos m') e')
                (scaled_den e')) as [N0 [N1 N2]].
    { apply scaled_num_nonneg. lia. }
    { apply scaled_den_pos. }
    now apply fixed_point_rendered.
Qed.

(** C8.  For a confidence whose hundredfold is a finite double, the headline
    string is that double shown with exactly two decimals followed by "%",
    and the row string is the same double shown with one decimal followed
    by "%": in each, the digits read back as the nearest multiple of 0.01
    (of 0.1) to the double, ties to even.  0.7 gives "70.00%" and "70.0%",
    0.0401 gives "4.01%" and "4.0%", 0.123456 gives "12.35%" and "12.3%". *)
Theorem percentage_strings (c : float) (s : bool) (m e : Z) :
  finite_parts (c * 100)%float = Some (s, m, e) ->
  (exists out, format_confidence c = out ++ "%" /\ rendered 2 s m e out) /\
  (exists out, row_percentage c = out ++ "%" /\ rendered 1 s m e out) /\
  format_confidence 0.7 = "70.00%" /\
  row_percentage 0.7 = "70.0%" /\
  format_confidence 0.0401 = "4.01%" /\
  row_percentage 0.0401 = "4.0%" /\
  format_confidence 0.123456 = "12.35%" /\
  row_percentage 0.123456 = "12.3%".
Proof.
  intros H. repeat split.
  - exists (format_f 2 (c * 100)%float). split; [reflexivity|].
    now apply format_f_rendered.
  - exists (format_f 1 (c * 100)%float). split; [reflexivity|].
    now apply format_f_rendered.
Qed.

Lemma percentage_strings_witness :
  (exists out, format_confidence 0.0401 = out ++ "%" /\
               rendered 2 false 4514858626438922 (-50) out) /\
  format_confidence 0.7 = "70.00%" /\ row_percentage 0.7 = "70.0%".
Proof.
  destruct (percentage_strings 0.0401 false 4514858626438922 (-50) eq_refl)
    as [H [_ [E1 [E2 _]]]].
  split; [exact H | split; [exact E1 | exact E2]].
Defined.

(** More values of the two formats, ties included. *)
Example percentage_examples :
  format_confidence 0.0401 = "4.01%" /\ row_percentage 0.91 = "91.0%" /\
  format_f 2 0.125 = "0.12" /\ format_f 2 0.375 = "0.38" /\
  format_confidence 0 = "0.00%" /\ format_confidence 1 = "100.00%".
Proof. repeat split. Qed.

(** ** Ranking *)

Lemma enumerate_length {A : Type} (l : list A) (start : Z) :
  List.length (enumerate l start) = List.length l.
Proof.
  revert start. induction l as [|x l IH]; intros start; simpl; [reflexivity|].
  now rewrite IH.
Qed.

Lemma enumerate_snd {A : Type} (l : list A) (start : Z) :
  map snd (enumerate l start) = l.
Proof.
  revert start. induction l as [|x l IH]; intros start; simpl; [reflexivity|].
  now rewrite IH.
Qed.

Lemma enumerate_nth {A : Type} (l : list A) (start : Z) (i : nat) :
  nth_error (enumerate l start) i =
  option_map (fun x => (start + Z.of_nat i, x)) (nth_error l i).
Proof.
  revert start i. induction l as [|x l IH]; intros start [|i]; try reflexivity.
  - cbn [enumerate nth_error option_map]. do 2 f_equal. lia.
  - cbn [enumerate nth_error]. rewrite IH.
    destruct (nth_error l i); cbn [option_map]; [|reflexivity].
    do 2 f_equal. lia.
Qed.

Lemma render_row_entry (idx : Z) (label : string) (confidence : float) :
  row_idx (render_row (idx, (label, confidence))) = idx /\
  row_label (render_row (idx, (label, confidence))) = label /\
  row_confidence (render_row (idx, (label, confidence))) = confidence.
Proof. repeat split. Qed.

Lemma rows_keep_entries (l : list (string * float)) (start : Z) :
  map (fun r => (row_label r, row_confidence r))
      (map render_row (enumerate l start)) = l.
Proof.
  revert start. induction l as [|[label c] l IH]; intros start;
    [reflexivity|].
  cbn [enumerate map]. rewrite IH. reflexivity.
Qed.

Lemma rows_keep_labels (l : list (string * float)) (start : Z) :
  map row_label (map render_row (enumerate l start)) = map fst l.
Proof.
  revert start. induction l as [|[label c] l IH]; intros start;
    [reflexivity|].
  cbn [enumerate map]. rewrite IH. reflexivity.
Qed.

Lemma row_bar_render_row (idx : Z) (label : string) (confidence : float) :
  row_bar (render_row (idx, (label, confidence))) =
  (n <- int_of_float (confidence * 100)%float ;; Return (Z.min n 100)).
Proof. reflexivity. Qed.

Lemma Prim2SF_zero : Prim2SF 0 = S754_zero false.
Proof. reflexivity. Qed.

Lemma Prim2SF_infinity : Prim2SF infinity = S754_infinity false.
Proof. reflexivity. Qed.

(** A score whose hundredfold is from 0 up and finite gives the bar an
    [int] from 0 to 100. *)
Lemma row_bar_drawable (idx : Z) (label : string) (c : float) :
  (0 <=? c * 100)%float = true ->
  (c * 100 <? infinity)%float = true ->
  exists n, row_bar (render_row (idx, (label, c))) = Return n /\ 0 <= n <= 100.
Proof.
  rewrite row_bar_render_row, leb_spec, ltb_spec, Prim2SF_zero, Prim2SF_infinity.
  unfold int_of_float.
  destruct (Prim2SF (c * 100)%float) as [s|s| |s m e]; cbn [bind].
  - intros _ _. exists (Z.min 0 100). split; [reflexivity|lia].
  - destruct s; discriminate.
  - discriminate.
  - destruct s; [discriminate|]. intros _ _.
    assert (0 <= Z.pos m * 2 ^ Z.max 0 e / 2 ^ Z.max 0 (- e)).
    { apply Z.div_pos; [|apply Z.pow_pos_nonneg; lia].
      assert (0 < 2 ^ Z.max 0 e) by (apply Z.pow_pos_nonneg; lia). lia. }
    eexists. split; [reflexivity|lia].
Qed.

Section DisplayFacts.

Variable st_progress : Z -> result unit.

(** The rows drawn in full are the first of the rows of the entries, and
    all of them exactly when nothing was raised. *)
Lemma render_rows_prefix (entries : list (Z * (string * float)))
    (rows : list Row) (raised : option PyExn) :
  render_rows st_progress entries = (rows, raised) ->
  exists rest,
    map render_row entries = (rows ++ rest)%list /\
    (raised = None <-> rest = []).
Proof.
  revert rows raised. induction entries as [|entry entries IH];
    intros rows raised; cbn [render_rows].
  - intros [= <- <-]. exists []. split; [reflexivity|tauto].
  - destruct (n <- row_bar (render_row entry) ;; st_progress n) as [u|e].
    + destruct (render_rows st_progress entries) as [rows' raised'].
      intros [= <- <-].
      destruct (IH rows' raised' eq_refl) as [rest [E I]].
      exists rest. cbn [map app]. now rewrite E.
    + intros [= <- <-]. exists (map render_row (entry :: entries)).
      split; [reflexivity|]. split; discriminate.
Qed.

Lemma render_rows_complete (entries : list (Z * (string * float))) :
  (forall entry, In entry entries ->
     exists n, row_bar (render_row entry) = Return n /\
               st_progress n = Return tt) ->
  render_rows st_progress entries = (map render_row entries, None).
Proof.
  induction entries as [|entry entries IH]; intros H; [reflexivity|].
  cbn [render_rows map].
  destruct (H entry (or_introl eq_refl)) as [n [B P]].
  rewrite B. cbn [bind]. rewrite P, IH; [reflexivity|].
  intros entry' I. apply H. now right.
Qed.

Lemma render_predictions_cases (predictions : Predictions)
    (top : TopSummary) (rows : list Row) (raised : option PyExn) :
  render_predictions st_progress predictions = Some (top, rows, raised) ->
  render_rows st_progress (enumerate (items predictions) 1) = (rows, raised) /\
  hd_error (items predictions) = Some (best_label top, best_score top).
Proof.
  unfold render_predictions, keys, values, items.
  destruct predictions as [|[label score] rest]; [discriminate|].
  cbn [map nth_error hd_error].
  destruct (render_rows st_progress (enumerate ((label, score) :: rest) 1))
    as [rows' raised'].
  intros [= <- <- <-]. split; reflexivity.
Qed.

Lemma render_predictions_nonempty (predictions : Predictions) :
  predictions <> [] ->
  exists top rows raised,
    render_predictions st_progress predictions = Some (top, rows, raised).
Proof.
  unfold render_predictions, keys, values, items.
  destruct predictions as [|[label score] rest]; [congruence|]. intros _.
  cbn [map nth_error].
  destruct (render_rows st_progress (enumerate ((label, score) :: rest) 1))
    as [rows' raised'].
  eexists _, _, _. reflexivity.
Qed.

(** A row drawn in full sits at the place of its entry and carries the
    entry's rank. *)
Lemma drawn_row_entry (predictions : Predictions) (rows rest : list Row)
    (i : nat) (r : Row) :
  map render_row (enumerate (items predictions) 1) = (rows ++ rest)%list ->
  nth_error rows i = Some r ->
  exists label c,
    nth_error (items predictions) i = Some (label, c) /\
    r = render_row (1 + Z.of_nat i, (label, c)).
Proof.
  intros E H.
  assert (L : (i < List.length rows)%nat)
    by (apply nth_error_Some; congruence).
  pose proof (nth_error_app1 rows rest L) as A.
  rewrite <- E, nth_error_map, enumerate_nth, H in A.
  destruct (nth_error (items predictions) i) as [[label c]|];
    cbn [option_map] in A; [|discriminate].
  exists label, c. split; [reflexivity|congruence].
Qed.

End DisplayFacts.

(** C6.  For a mapping that is not empty, the headline label and confidence
    are those of the first entry, and the rows drawn are entries of the
    mapping in the order received, row [i] (from 0) being entry [i] and
    carrying rank [i + 1].  When every score times 100 is from 0 up and
    finite, as it is for a score between 0 and 1, and the bar takes an [int]
    from 0 to 100, the loop raises nothing and the rows are all the
    entries. *)
Theorem render_predictions_order (st_progress : Z -> result unit)
    (predictions : Predictions) :
  predictions <> [] ->
  exists top rows raised,
    render_predictions st_progress predictions = Some (top, rows, raised) /\
    hd_error (items predictions) = Some (best_label top, best_score top) /\
    (forall i r,
       nth_error rows i = Some r ->
       row_idx r = Z.of_nat i + 1 /\
       nth_error (items predictions) i = Some (row_label r, row_confidence r)) /\
    ((forall n, 0 <= n <= 100 -> st_progress n = Return tt) ->
     (forall label c, In (label, c) predictions ->
        (0 <=? c * 100)%float = true /\ (c * 100 <? infinity)%float = true) ->
     raised = None /\
     map (fun r => (row_label r, row_confidence r)) rows = items predictions /\
     map row_label rows = keys predictions).
Proof.
  intros Hne.
  destruct (render_predictions_nonempty st_progress predictions Hne)
    as [top [rows [raised E]]].
  exists top, rows, raised. split; [exact E|].
  destruct (render_predictions_cases st_progress _ _ _ _ E) as [R T].
  split; [exact T|]. split.
  - intros i r H.
    destruct (render_rows_prefix st_progress _ _ _ R) as [rest [P _]].
    destruct (drawn_row_entry predictions rows rest i r P H)
      as [label [c [N ->]]].
    rewrite N. cbn [render_row row_idx row_label row_confidence].
    split; [lia|reflexivity].
  - intros Hbar Hscores.
    rewrite render_rows_complete in R.
    + injection R as <- <-. split; [reflexivity|].
      split; [apply rows_keep_entries | apply rows_keep_labels].
    + intros [idx [label c]] I.
      assert (I' : In (label, c) predictions).
      { apply (in_map snd) in I. now rewrite enumerate_snd in I. }
      destruct (Hscores label c I') as [H0 H1].
      destruct (row_bar_drawable idx label c H0 H1) as [n [B Rg]].
      exists n. split; [exact B|]. now apply Hbar.
Qed.

Lemma render_predictions_order_witness :
  exists top rows,
    render_predictions progress_widget dog_cat_fox = Some (top, rows, None) /\
    map row_label rows = ["dog"; "cat"; "fox"] /\
    best_label top = "dog".
Proof.
  destruct (render_predictions_order progress_widget dog_cat_fox)
    as [top [rows [raised [E [H [_ C]]]]]].
  - discriminate.
  - destruct C as [N [_ K]].
    + intros n Hn. unfold progress_widget.
      destruct (Z.leb_spec 0 n); [|lia].
      destruct (Z.leb_spec n 100); [reflexivity|lia].
    + intros label c [I|[I|[I|[]]]]; injection I as <- <-; split; reflexivity.
    + subst raised. exists top, rows. repeat split; [exact E | exact K |].
      cbn in H. now injection H as <- _.
Defined.

Example display_label_golden_retriever :
  display_label "golden_retriever" = "Golden Retriever".
Proof. reflexivity. Qed.

(** The rendering of the mapping of the spec's example. *)
Example render_predictions_dog_cat_fox :
  option_map (fun t => (best_label (fst (fst t)), top_value (fst (fst t)),
                        top_delta (fst (fst t)),
                        map (fun r => (row_idx r, row_label r, row_value r))
                            (snd (fst t)),
                        snd t))
             (render_predictions progress_widget dog_cat_fox) =
  Some ("dog", "91.00%", "High",
        [(1, "dog", "91.0%"); (2, "cat", "5.0%"); (3, "fox", "4.0%")],
        None).
Proof. reflexivity. Qed.

(** A score that is not a number ends the loop at its row: [int] raises at
    line 366, the row before is drawn and the row after is never begun. *)
Example render_predictions_dog_nan_fox :
  option_map (fun t => (best_label (fst (fst t)),
                        map row_label (snd (fst t)),
                        option_map exn_class (snd t)))
             (render_predictions progress_widget dog_nan_fox) =
  Some ("dog", ["dog"], Some ValueError).
Proof. reflexivity. Qed.

(** ** The session state *)

Section ScriptFacts.

Variable Image_open : UploadedFile -> result Image * UploadedFile.
Variable Image_verify : Image -> UploadedFile -> result unit * UploadedFile.
Variable Image_convert : Image -> string -> Image.
Variable Image_save : Image -> string -> Z -> result bytes.
Variable py_repr : pyval -> string.

Let run := run_script Image_open Image_verify Image_convert Image_save py_repr.
Let runs := run_all Image_open Image_verify Image_convert Image_save py_repr.

(** What a rerun does to the session, by how far it got. *)
Lemma run_script_cases (ss : SessionState) (r : Rerun) :
  (session (run ss r) = ss /\
   (outcome (run ss r) = NoAnalysis \/ exists e, outcome (run ss r) = Crashed e)) \/
  (exists res,
     session (run ss r) = store_outcome ss (elapsed r) res /\
     outcome (run ss r) = Analysed (fst (fst res)) (snd res) /\
     displayed (run ss r) = display_block (store_outcome ss (elapsed r) res)).
Proof.
  unfold run, run_script.
  destruct (uploaded_file r) as [f|]; [|left; split; [reflexivity|now left]].
  destruct (validate_image Image_open Image_verify f) as [[is_valid msg] f1].
  destruct is_valid; cbn [negb]; [|left; split; [reflexivity|now left]].
  destruct (Image_open f1) as [[image|e] f2];
    [|left; split; [reflexivity|right; now exists e]].
  destruct (analyze_btn r); [|left; split; [reflexivity|now left]].
  destruct (preprocess_image Image_convert Image_save image) as [image_bytes|e];
    [|left; split; [reflexivity|right; now exists e]].
  destruct (get_predictions (network r) py_repr image_bytes) as [res|e];
    [|left; split; [reflexivity|right; now exists e]].
  right. exists res. repeat split.
Qed.

Lemma store_outcome_failure (ss : SessionState) (now : float)
    (preds : pyval) (err : option string) :
  predictions (store_outcome ss now (false, preds, err)) = PNone.
Proof. reflexivity. Qed.

Lemma failed_run_clears (ss : SessionState) (r : Rerun) (msg : option string) :
  outcome (run ss r) = Analysed false msg ->
  predictions (session (run ss r)) = PNone /\ displayed (run ss r) = None.
Proof.
  intros H.
  destruct (run_script_cases ss r) as [[_ [E|[e E]]]|[res [Es [Eo Ed]]]];
    try (rewrite E in H; discriminate).
  rewrite Eo in H. injection H as Hflag _.
  destruct res as [[success preds] err]. cbn [fst snd] in Hflag. subst success.
  rewrite Ed, Es. split; reflexivity.
Qed.

(** Stored predictions other than [None] come from a successful analysis,
    and stay only while no later analysis completes. *)
Lemma run_all_invariant (rs : list Rerun) (ss : SessionState) (last : option bool) :
  (is_None (predictions ss) = false -> last = Some true) ->
  is_None (predictions (fst (runs ss last rs))) = false ->
  snd (runs ss last rs) = Some true.
Proof.
  revert ss last. induction rs as [|r rs IH]; intros ss last Hinv.
  - exact Hinv.
  - unfold runs. cbn [run_all]. apply IH.
    fold (run ss r).
    destruct (run_script_cases ss r) as [[Es [E|[e E]]]|[res [Es [Eo _]]]];
      rewrite ?E, ?Eo, Es; auto.
    destruct res as [[[|] preds] err]; cbn [fst snd store_outcome predictions];
      [reflexivity|discriminate].
Qed.

End ScriptFacts.

(** C9.  A rerun whose analysis fails leaves [None] as the stored
    predictions and hands nothing to the display block; and over any
    sequence of reruns from a fresh session, stored predictions other than
    [None] mean that the most recent analysis that ran to completion
    succeeded. *)
Theorem failed_analysis_clears_predictions
    (Image_open : UploadedFile -> result Image * UploadedFile)
    (Image_verify : Image -> UploadedFile -> result unit * UploadedFile)
    (Image_convert : Image -> string -> Image)
    (Image_save : Image -> string -> Z -> result bytes)
    (py_repr : pyval -> string) :
  (forall ss r msg,
     outcome (run_script Image_open Image_verify Image_convert Image_save
                py_repr ss r) = Analysed false msg ->
     predictions (session (run_script Image_open Image_verify Image_convert
                             Image_save py_repr ss r)) = PNone /\
     displayed (run_script Image_open Image_verify Image_convert Image_save
                  py_repr ss r) = None) /\
  (forall rs,
     is_None (predictions (fst (run_all Image_open Image_verify Image_convert
                                  Image_save py_repr initial_session None rs)))
       = false ->
     snd (run_all Image_open Image_verify Image_convert Image_save py_repr
            initial_session None rs) = Some true).
Proof.
  split.
  - intros ss r msg. apply failed_run_clears.
  - intros rs. apply run_all_invariant. discriminate.
Qed.

Lemma failed_analysis_clears_predictions_witness :
  predictions after_success = PDict [("dog", PFloat 0.91)] /\
  predictions (session (run_script sniff_open read_all_verify mode_convert
                          jpeg_save repr_stub after_success (click refused)))
    = PNone /\
  displayed (run_script sniff_open read_all_verify mode_convert jpeg_save
               repr_stub after_success (click refused)) = None.
Proof.
  split; [reflexivity|].
  apply (proj1 (failed_analysis_clears_predictions sniff_open read_all_verify
                  mode_convert jpeg_save repr_stub)
           after_success (click refused)
           (Some "Cannot connect to TorchServe. Please ensure Docker container is running on port 8080.")).
  reflexivity.
Defined.

(** A success followed by a failure, then by a rerun without a click. *)
Example session_trace :
  run_all sniff_open read_all_verify mode_convert jpeg_save repr_stub
    initial_session None
    [click (answers (Return dog_response)); click refused;
     {| uploaded_file := None; analyze_btn := false; network := refused;
        elapsed := 0 |}]
  = ({| predictions := PNone; analysis_time := Some 0.25%float |}, Some false).
Proof. reflexivity. Qed.


(** * Further properties *)

(** ** The inference client: transport failures and error bodies *)

(** X1.  When the request raises, nothing is raised to the caller and the
    message depends on the class of the exception alone for connection
    errors and timeouts: a connection error, a connect timeout included,
    gives the "Cannot connect" text; any other timeout gives "Request timed
    out after 30 seconds."; only for the remaining exceptions does the
    exception's own text reach the message. *)
Theorem get_predictions_transport_failure
    (requests_post : string -> bytes -> Z -> list (string * string) -> result Response)
    (py_repr : pyval -> string) (image_bytes : bytes) (e : PyExn) :
  requests_post TORCHSERVE_URL image_bytes REQUEST_TIMEOUT
    [("Content-Type", "application/octet-stream")] = Raise e ->
  exists msg,
    get_predictions requests_post py_repr image_bytes =
      Return (false, PNone, Some msg) /\
    (isinstance_ConnectionError e = true ->
     msg = "Cannot connect to TorchServe. Please ensure Docker container is running on port 8080.") /\
    (exn_class e = ConnectTimeout ->
     msg = "Cannot connect to TorchServe. Please ensure Docker container is running on port 8080.") /\
    (isinstance_ConnectionError e = false -> isinstance_Timeout e = true ->
     msg = "Request timed out after 30 seconds.") /\
    (isinstance_ConnectionError e = false -> isinstance_Timeout e = false ->
     msg = "Unexpected error: " ++ exn_str e).
Proof.
  intros Hcall. rewrite (get_predictions_raised _ _ _ _ Hcall).
  unfold get_predictions_handler.
  destruct (isinstance_ConnectionError e) eqn:Hc.
  - eexists. split; [reflexivity|]. repeat split; intros; congruence.
  - assert (Hn : exn_class e <> ConnectTimeout).
    { intros E. unfold isinstance_ConnectionError in Hc. rewrite E in Hc.
      discriminate. }
    destruct (isinstance_Timeout e) eqn:Ht;
      (eexists; split; [reflexivity|]; repeat split; intros; congruence).
Qed.

Lemma get_predictions_transport_failure_witness :
  get_predictions (answers (Raise (mkExn ConnectTimeout "connect timed out")))
    repr_stub [] =
  Return (false, PNone,
          Some "Cannot connect to TorchServe. Please ensure Docker container is running on port 8080.").
Proof.
  destruct (get_predictions_transport_failure
              (answers (Raise (mkExn ConnectTimeout "connect timed out")))
              repr_stub [] (mkExn ConnectTimeout "connect timed out") eq_refl)
    as [msg [E [_ [H _]]]].
  rewrite E, (H eq_refl). reflexivity.
Defined.

(** X2.  One request decides the answer: two networks that agree on the
    POST to [TORCHSERVE_URL] with the payload, the 30 second timeout and the
    octet-stream header give the same result, whatever they do elsewhere. *)
Theorem get_predictions_single_request
    (post1 post2 : string -> bytes -> Z -> list (string * string) -> result Response)
    (py_repr : pyval -> string) (image_bytes : bytes) :
  post1 "http://localhost:8080/predictions/resnet" image_bytes 30
    [("Content-Type", "application/octet-stream")] =
  post2 "http://localhost:8080/predictions/resnet" image_bytes 30
    [("Content-Type", "application/octet-stream")] ->
  get_predictions post1 py_repr image_bytes =
  get_predictions post2 py_repr image_bytes.
Proof.
  intros H. unfold get_predictions, TORCHSERVE_URL, REQUEST_TIMEOUT.
  rewrite H. reflexivity.
Qed.

Lemma get_predictions_single_request_witness :
  get_predictions (answers (Return dog_response)) repr_stub [Byte.xff] =
  get_predictions (only_at_endpoint (Return dog_response)) repr_stub [Byte.xff].
Proof.
  apply (get_predictions_single_request (answers (Return dog_response))
           (only_at_endpoint (Return dog_response)) repr_stub [Byte.xff]).
  reflexivity.
Defined.

(** X3.  A non-200 answer whose body is a JSON object without a [message]
    key puts the whole body after the status, however long it is. *)
Theorem get_predictions_error_body_without_message
    (requests_post : string -> bytes -> Z -> list (string * string) -> result Response)
    (py_repr : pyval -> string) (image_bytes : bytes) (response : Response)
    (d : list (string * pyval)) :
  requests_post TORCHSERVE_URL image_bytes REQUEST_TIMEOUT
    [("Content-Type", "application/octet-stream")] = Return response ->
  status_code response <> 200 ->
  json response = Return (PDict d) ->
  dict_lookup d "message" = None ->
  get_predictions requests_post py_repr image_bytes =
  Return (false, PNone,
          Some ("Server returned status " ++ str_int (status_code response)
                ++ ": " ++ text response)).
Proof.
  intros Hcall Hs Hj Hm.
  rewrite (get_predictions_non_200 _ _ _ _ Hcall Hs), server_error_msg_cases,
    Hj, Hm.
  reflexivity.
Qed.

Lemma get_predictions_error_body_without_message_witness :
  exists body,
    get_predictions (answers (Return teapot_response)) repr_stub [] =
    Return (false, PNone, Some ("Server returned status 418: " ++ body)) /\
    body = text teapot_response.
Proof.
  exists (text teapot_response). split; [|reflexivity].
  apply (get_predictions_error_body_without_message
           (answers (Return teapot_response)) repr_stub [] teapot_response
           [("error", PStr "short and stout")]); try reflexivity.
  simpl. lia.
Defined.

Lemma slice_to_length (n : nat) (s : string) :
  (String.length (slice_to n s) <= n)%nat.
Proof.
  unfold slice_to. revert n.
  induction s as [|c s IH]; intros [|n]; cbn [substring String.length]; try lia.
  specialize (IH n). lia.
Qed.

(** X4.  A non-200 answer whose body is not JSON, or is JSON but not an
    object, puts at most the first 200 characters of the body after the
    status. *)
Theorem get_predictions_error_body_truncated
    (requests_post : string -> bytes -> Z -> list (string * string) -> result Response)
    (py_repr : pyval -> string) (image_bytes : bytes) (response : Response) :
  requests_post TORCHSERVE_URL image_bytes REQUEST_TIMEOUT
    [("Content-Type", "application/octet-stream")] = Return response ->
  status_code response <> 200 ->
  (forall d, json response <> Return (PDict d)) ->
  exists detail,
    get_predictions requests_post py_repr image_bytes =
    Return (false, PNone,
            Some ("Server returned status " ++ str_int (status_code response)
                  ++ ": " ++ detail)) /\
    detail = slice_to 200 (text response) /\
    (String.length detail <= 200)%nat /\
    (exists rest, text response = detail ++ rest).
Proof.
  intros Hcall Hs Hj.
  exists (slice_to 200 (text response)).
  rewrite (get_predictions_non_200 _ _ _ _ Hcall Hs), server_error_msg_cases.
  repeat split.
  - destruct (json response) as [v|e]; [|reflexivity].
    destruct v; try reflexivity. now elim (Hj d).
  - apply slice_to_length.
  - apply slice_to_prefix.
Qed.

Lemma get_predictions_error_body_truncated_witness :
  exists detail,
    get_predictions (answers (Return html_response)) repr_stub [] =
    Return (false, PNone, Some ("Server returned status 503: " ++ detail)) /\
    (String.length detail <= 200)%nat.
Proof.
  destruct (get_predictions_error_body_truncated
              (answers (Return html_response)) repr_stub [] html_response)
    as [detail [E [_ [L _]]]].
  - reflexivity.
  - simpl. lia.
  - intros d. discriminate.
  - exists detail. split; [exact E | exact L].
Defined.


(** ** The image stages: verdicts and modes *)

Lemma validate_image_over_limit
    (Image_open : UploadedFile -> result Image * UploadedFile)
    (Image_verify : Image -> UploadedFile -> result unit * UploadedFile)
    (f : UploadedFile) :
  MAX_FILE_SIZE < uf_size f ->
  validate_image Image_open Image_verify f =
    ((false, Some "File size exceeds 10MB limit."), f).
Proof.
  intros H. unfold validate_image.
  destruct (uf_size f >? MAX_FILE_SIZE) eqn:E; [reflexivity|].
  rewrite Z.gtb_ltb, Z.ltb_ge in E. lia.
Qed.

(** X5.  The verdict is [True] exactly for an upload that is within the size
    limit and that the verify-only decode accepts; and a verdict comes with
    a reason exactly when it is [False]. *)
Theorem validate_image_verdict
    (Image_open : UploadedFile -> result Image * UploadedFile)
    (Image_verify : Image -> UploadedFile -> result unit * UploadedFile)
    (f : UploadedFile) :
  (fst (fst (validate_image Image_open Image_verify f)) = true <->
   uf_size f <= MAX_FILE_SIZE /\ decodable Image_open Image_verify f = true) /\
  (fst (fst (validate_image Image_open Image_verify f)) = true <->
   snd (fst (validate_image Image_open Image_verify f)) = None).
Proof.
  destruct (Z_le_gt_dec (uf_size f) MAX_FILE_SIZE) as [Hle|Hgt].
  - rewrite (validate_image_within_limit _ _ _ Hle). unfold decodable.
    destruct (decode_attempt Image_open Image_verify f) as [[u|e] f'];
      cbn [fst snd]; repeat split; auto; try discriminate;
      intros [_ H]; discriminate H.
  - rewrite (validate_image_over_limit Image_open Image_verify f (Z.gt_lt _ _ Hgt)). cbn [fst snd].
    repeat split; try discriminate. intros [H _]. lia.
Qed.

(** X6.  The size message is given exactly to the uploads above
    [MAX_FILE_SIZE]: one of exactly 10 MiB is not turned away for its size,
    one byte more is. *)
Theorem validate_image_size_boundary
    (Image_open : UploadedFile -> result Image * UploadedFile)
    (Image_verify : Image -> UploadedFile -> result unit * UploadedFile)
    (f : UploadedFile) :
  snd (fst (validate_image Image_open Image_verify f)) =
    Some "File size exceeds 10MB limit." <->
  uf_size f > 10 * 1024 * 1024.
Proof.
  change (10 * 1024 * 1024) with MAX_FILE_SIZE.
  destruct (Z_le_gt_dec (uf_size f) MAX_FILE_SIZE) as [Hle|Hgt].
  - rewrite (validate_image_within_limit _ _ _ Hle).
    destruct (decode_attempt Image_open Image_verify f) as [[u|e] f'];
      cbn [fst snd]; split; try lia; discriminate.
  - rewrite (validate_image_over_limit Image_open Image_verify f (Z.gt_lt _ _ Hgt)). cbn [fst snd].
    split; auto.
Qed.

(** X7.  Whatever the image, the writer is asked for a JPEG at quality 95
    and, with a [convert] that yields the mode it is asked for, never for an
    image in mode RGBA: an RGBA image is converted to RGB first and any
    other image is passed on as it is. *)
Theorem preprocess_image_writer_input
    (Image_convert : Image -> string -> Image)
    (Image_save : Image -> string -> Z -> result bytes) (image : Image) :
  (forall im mode, im_mode (Image_convert im mode) = mode) ->
  exists written,
    preprocess_image Image_convert Image_save image =
      Image_save written "JPEG" 95 /\
    im_mode written <> "RGBA" /\
    (im_mode image = "RGBA" -> written = Image_convert image "RGB") /\
    (im_mode image <> "RGBA" -> written = image).
Proof.
  intros Hconv. unfold preprocess_image.
  destruct (String.eqb (im_mode image) "RGBA") eqn:E.
  - apply String.eqb_eq in E. exists (Image_convert image "RGB").
    repeat split; auto; [rewrite Hconv; discriminate | congruence].
  - apply String.eqb_neq in E. exists image. repeat split; auto. congruence.
Qed.

Lemma preprocess_image_writer_input_witness :
  exists written,
    preprocess_image mode_convert jpeg_save rgba_image =
      jpeg_save written "JPEG" 95 /\
    im_mode written <> "RGBA".
Proof.
  destruct (preprocess_image_writer_input mode_convert jpeg_save rgba_image)
    as [written [E [M _]]].
  - reflexivity.
  - exists written. split; [exact E | exact M].
Defined.

(** X8.  With a writer that returns bytes exactly for the modes of
    [JPEG_RAWMODE] and a [convert] that yields the mode it is asked for,
    [preprocess_image] returns bytes exactly for the images in mode RGBA or
    in one of those modes; for every other mode it raises. *)
Theorem preprocess_image_succeeds_iff
    (Image_convert : Image -> string -> Image)
    (Image_save : Image -> string -> Z -> result bytes) (image : Image) :
  (forall im mode, im_mode (Image_convert im mode) = mode) ->
  (forall im, (exists b, Image_save im "JPEG" 95 = Return b) <->
              jpeg_writable (im_mode im) = true) ->
  (exists b, preprocess_image Image_convert Image_save image = Return b) <->
  (im_mode image = "RGBA" \/ jpeg_writable (im_mode image) = true).
Proof.
  intros Hconv Hsave. unfold preprocess_image.
  destruct (String.eqb (im_mode image) "RGBA") eqn:E.
  - apply String.eqb_eq in E. rewrite Hsave, Hconv.
    split; [intros _; now left | intros _; reflexivity].
  - apply String.eqb_neq in E. rewrite Hsave.
    split; [intros H; now right | intros [H|H]; [contradiction|exact H]].
Qed.

Lemma preprocess_image_succeeds_iff_witness :
  (exists b, preprocess_image mode_convert jpeg_save rgba_image = Return b) /\
  ~ (exists b, preprocess_image mode_convert jpeg_save la_image = Return b).
Proof.
  assert (Hc : forall im mode, im_mode (mode_convert im mode) = mode)
    by reflexivity.
  assert (Hs : forall im, (exists b, jpeg_save im "JPEG" 95 = Return b) <->
                          jpeg_writable (im_mode im) = true).
  { intros im. unfold jpeg_save.
    destruct (jpeg_writable (im_mode im)); split.
    - reflexivity.
    - intros _. eexists; reflexivity.
    - intros [b H]; discriminate H.
    - discriminate. }
  split.
  - apply (preprocess_image_succeeds_iff mode_convert jpeg_save rgba_image Hc Hs).
    left; reflexivity.
  - intros H.
    apply (preprocess_image_succeeds_iff mode_convert jpeg_save la_image Hc Hs)
      in H.
    destruct H as [H|H]; discriminate H.
Defined.


(** ** The result formatter: rows, bars, labels and tiers *)

Lemma row_medal_render_row (idx : Z) (label : string) (confidence : float) :
  row_medal (render_row (idx, (label, confidence))) = medal idx.
Proof. reflexivity. Qed.

Lemma medal_from_fourth (idx : Z) : 4 <= idx -> medal idx = Bullet.
Proof.
  intros H. unfold medal.
  rewrite (proj2 (Z.eqb_neq idx 1)), (proj2 (Z.eqb_neq idx 2)),
    (proj2 (Z.eqb_neq idx 3)); [reflexivity|lia..].
Qed.

(** X9.  The rows drawn in full never outnumber the entries of the mapping,
    and are as many exactly when the loop raised nothing.  The medals go by
    position: gold, silver and bronze to rows 0, 1 and 2, the bullet to
    every later row. *)
Theorem render_predictions_rows_and_medals (st_progress : Z -> result unit)
    (predictions : Predictions) (top : TopSummary) (rows : list Row)
    (raised : option PyExn) :
  render_predictions st_progress predictions = Some (top, rows, raised) ->
  (List.length rows <= List.length predictions)%nat /\
  (raised = None <-> List.length rows = List.length predictions) /\
  (forall i r,
     nth_error rows i = Some r ->
     row_medal r = match i with
                   | O => Gold
                   | 1%nat => Silver
                   | 2%nat => Bronze
                   | _ => Bullet
                   end).
Proof.
  intros H.
  destruct (render_predictions_cases st_progress _ _ _ _ H) as [R _].
  destruct (render_rows_prefix st_progress _ _ _ R) as [rest [P I]].
  assert (L : List.length predictions
              = (List.length rows + List.length rest)%nat).
  { rewrite <- length_app, <- P, length_map, enumerate_length. reflexivity. }
  split; [lia|]. split.
  - rewrite I. split.
    + intros ->. cbn [List.length] in L. lia.
    + intros E. destruct rest; [reflexivity|]. cbn [List.length] in L. lia.
  - intros i r Hr.
    destruct (drawn_row_entry predictions rows rest i r P Hr)
      as [label [c [_ ->]]].
    rewrite row_medal_render_row.
    destruct i as [|[|[|i]]]; try reflexivity.
    apply medal_from_fourth. lia.
Qed.

Lemma render_predictions_rows_and_medals_witness :
  exists top rows,
    render_predictions progress_widget dog_cat_fox = Some (top, rows, None) /\
    List.length rows = 3%nat.
Proof.
  destruct (render_predictions progress_widget dog_cat_fox)
    as [[[top rows] raised]|] eqn:E; [|discriminate E].
  assert (N : raised = None) by (vm_compute in E; congruence).
  subst raised. exists top, rows. split; [reflexivity|].
  exact (proj1 (proj1 (proj2 (render_predictions_rows_and_medals
                                progress_widget dog_cat_fox top rows None E)))
           eq_refl).
Defined.

(** X10.  The value handed to the progress bar of a row is never above 100,
    and is not negative when the hundredfold of the confidence is not; but
    when the hundredfold is nan or infinite, [int()] raises and there is no
    value at all. *)
Theorem row_bar_range (idx : Z) (label : string) (confidence : float) :
  match finite_parts (confidence * 100)%float with
  | Some (s, _, _) =>
      exists n,
        row_bar (render_row (idx, (label, confidence))) = Return n /\
        n <= 100 /\ (s = false -> 0 <= n)
  | None =>
      exists e, row_bar (render_row (idx, (label, confidence))) = Raise e
  end.
Proof.
  rewrite row_bar_render_row. unfold finite_parts, int_of_float.
  destruct (Prim2SF (confidence * 100)%float) as [s|s| |s m e]; cbn [bind].
  - exists (Z.min 0 100). split; [reflexivity|]. split; [lia|]. intros _. lia.
  - eexists; reflexivity.
  - eexists; reflexivity.
  - set (a := Z.pos m * 2 ^ Z.max 0 e / 2 ^ Z.max 0 (- e)).
    assert (A : 0 <= a).
    { apply Z.div_pos.
      - assert (0 < 2 ^ Z.max 0 e) by (apply Z.pow_pos_nonneg; lia). lia.
      - apply Z.pow_pos_nonneg; lia. }
    eexists. split; [reflexivity|]. split; [lia|].
    intros ->. lia.
Qed.

Lemma cased_to_upper (c : ascii) :
  is_upper (to_upper c) || is_lower (to_upper c) = is_upper c || is_lower c.
Proof. destruct c as [[] [] [] [] [] [] [] []]; reflexivity. Qed.

Lemma cased_to_lower (c : ascii) :
  is_upper (to_lower c) || is_lower (to_lower c) = is_upper c || is_lower c.
Proof. destruct c as [[] [] [] [] [] [] [] []]; reflexivity. Qed.

Lemma to_upper_twice (c : ascii) : to_upper (to_upper c) = to_upper c.
Proof. destruct c as [[] [] [] [] [] [] [] []]; reflexivity. Qed.

Lemma to_lower_twice (c : ascii) : to_lower (to_lower c) = to_lower c.
Proof. destruct c as [[] [] [] [] [] [] [] []]; reflexivity. Qed.

Lemma titled_char_not_underscore (prev : bool) (c : ascii) :
  Ascii.eqb
    ((if prev then to_lower else to_upper) (if Ascii.eqb c "_" then " "%char else c))
    "_" = false.
Proof. destruct prev, c as [[] [] [] [] [] [] [] []]; reflexivity. Qed.

Lemma title_from_length (prev : bool) (s : string) :
  String.length (title_from prev s) = String.length s.
Proof.
  revert prev. induction s as [|c s IH]; intros prev; cbn [title_from String.length];
    [reflexivity|].
  now rewrite IH.
Qed.

Lemma replace_char_length (a b : ascii) (s : string) :
  String.length (replace_char a b s) = String.length s.
Proof. induction s as [|c s IH]; cbn [replace_char String.length]; congruence. Qed.

Lemma title_from_no_underscore (prev : bool) (s : string) :
  contains "_" (title_from prev (replace_char "_" " " s)) = false.
Proof.
  revert prev. induction s as [|c s IH]; intros prev; [reflexivity|].
  cbn [replace_char title_from]. rewrite contains_unfold, IH.
  cbn [prefix]. rewrite orb_false_r.
  pose proof (titled_char_not_underscore prev c) as N.
  destruct prev; cbn beta iota in N |- *;
    match goal with
    | |- (if ascii_dec ?a ?b then _ else _) = false =>
        destruct (ascii_dec a b) as [E|_]; [|reflexivity];
        rewrite <- E in N; rewrite Ascii.eqb_refl in N; discriminate N
    end.
Qed.

Lemma titled_char_ascii (prev : bool) (c : ascii) :
  (nat_of_ascii c <? 128)%nat = true ->
  (nat_of_ascii
     ((if prev then to_lower else to_upper)
        (if Ascii.eqb c "_" then " "%char else c)) <? 128)%nat = true.
Proof.
  destruct prev, c as [[] [] [] [] [] [] [] []];
    intros H; try reflexivity; discriminate H.
Qed.

Lemma title_from_ascii (prev : bool) (s : string) :
  is_ascii s = true ->
  is_ascii (title_from prev (replace_char "_" " " s)) = true.
Proof.
  revert prev. induction s as [|c s IH]; intros prev; [reflexivity|].
  cbn [is_ascii replace_char title_from]. intros H.
  apply andb_true_iff in H. destruct H as [Hc Hs].
  pose proof (titled_char_ascii prev c Hc) as A.
  destruct prev; cbn beta iota in A; rewrite A, IH; auto.
Qed.

(** X11.  For a label of ASCII characters, the displayed label has as many
    characters as the raw label, holds no underscore and is ASCII as
    well. *)
Theorem display_label_shape (label : string) :
  is_ascii label = true ->
  String.length (display_label label) = String.length label /\
  contains "_" (display_label label) = false /\
  is_ascii (display_label label) = true.
Proof.
  intros A. unfold display_label, title. repeat split.
  - now rewrite title_from_length, replace_char_length.
  - apply title_from_no_underscore.
  - now apply title_from_ascii.
Qed.

Lemma display_label_shape_witness :
  String.length (display_label "golden_retriever") = 16%nat /\
  contains "_" (display_label "golden_retriever") = false /\
  is_ascii (display_label "golden_retriever") = true.
Proof.
  apply (display_label_shape "golden_retriever"). reflexivity.
Defined.

Lemma title_from_twice (prev : bool) (s : string) :
  title_from prev (title_from prev s) = title_from prev s.
Proof.
  revert prev. induction s as [|c s IH]; intros prev; [reflexivity|].
  cbn [title_from]. destruct prev.
  - rewrite to_lower_twice, cased_to_lower, IH. reflexivity.
  - rewrite to_upper_twice, cased_to_upper, IH. reflexivity.
Qed.

Lemma replace_after_title (prev : bool) (s : string) :
  replace_char "_" " " (title_from prev (replace_char "_" " " s)) =
  title_from prev (replace_char "_" " " s).
Proof.
  revert prev. induction s as [|c s IH]; intros prev; [reflexivity|].
  cbn [replace_char title_from]. rewrite IH.
  pose proof (titled_char_not_underscore prev c) as N.
  destruct prev; cbn beta iota in N; rewrite N; reflexivity.
Qed.

(** X12.  For a label of ASCII characters, displaying the displayed label
    changes nothing: the transform is idempotent there. *)
Theorem display_label_idempotent (label : string) :
  is_ascii label = true ->
  display_label (display_label label) = display_label label.
Proof.
  intros _. unfold display_label, title.
  now rewrite replace_after_title, title_from_twice.
Qed.

Lemma display_label_idempotent_witness :
  display_label (display_label "golden_retriever") =
  display_label "golden_retriever".
Proof.
  apply (display_label_idempotent "golden_retriever"). reflexivity.
Defined.

Lemma SFltb_leb_trans (k x y : spec_float) :
  SFltb k x = true -> SFleb x y = true -> SFltb k y = true.
Proof.
  unfold SFltb, SFleb, SFcompare.
  destruct k as [sk|sk| |sk mk ek], x as [sx|sx| |sx mx ex],
           y as [sy|sy| |sy my ey];
    try discriminate; try reflexivity;
    try destruct sk; try destruct sx; try destruct sy;
    try discriminate; try reflexivity.
  all: repeat match goal with
       | |- context [PosDef.Pos.compare_cont Eq ?a ?b] =>
           change (PosDef.Pos.compare_cont Eq a b) with (Pos.compare a b)
       end.
  all: repeat match goal with
       | |- context [Z.compare ?a ?b] =>
           destruct (Z.compare_spec a b); try discriminate; try reflexivity
       | |- context [Pos.compare ?a ?b] =>
           destruct (Pos.compare_spec a b); cbn [CompOpp];
           try discriminate; try reflexivity
       end.
  all: intros; try lia.
Qed.

(** X13.  The tier never goes down when the confidence goes up: for
    [c1 <= c2], the delta of [c1] ranks at most as high as that of [c2]
    (Low below Medium below High). *)
Theorem confidence_delta_monotone (c1 c2 : float) :
  (c1 <=? c2)%float = true ->
  bucket_rank (confidence_delta c1) <= bucket_rank (confidence_delta c2).
Proof.
  rewrite leb_spec. intros Hle.
  assert (H7 : (0.7 <? c1)%float = true -> (0.7 <? c2)%float = true).
  { rewrite !ltb_spec. intros H. exact (SFltb_leb_trans _ _ _ H Hle). }
  assert (H4 : (0.4 <? c1)%float = true -> (0.4 <? c2)%float = true).
  { rewrite !ltb_spec. intros H. exact (SFltb_leb_trans _ _ _ H Hle). }
  unfold confidence_delta.
  destruct (0.7 <? c1)%float, (0.7 <? c2)%float,
           (0.4 <? c1)%float, (0.4 <? c2)%float;
    try (specialize (H7 eq_refl); discriminate);
    try (specialize (H4 eq_refl); discriminate);
    vm_compute; discriminate.
Qed.

Lemma confidence_delta_monotone_witness :
  bucket_rank (confidence_delta 0.41) <= bucket_rank (confidence_delta 0.91).
Proof.
  apply (confidence_delta_monotone 0.41 0.91). reflexivity.
Defined.


(** ** The page script: what a rerun touches and shows *)

Section RerunFacts.

Variable Image_open : UploadedFile -> result Image * UploadedFile.
Variable Image_verify : Image -> UploadedFile -> result unit * UploadedFile.
Variable Image_convert : Image -> string -> Image.
Variable Image_save : Image -> string -> Z -> result bytes.
Variable py_repr : pyval -> string.

Let run := run_script Image_open Image_verify Image_convert Image_save py_repr.
Let runs := run_all Image_open Image_verify Image_convert Image_save py_repr.
Let page := run_page Image_open Image_verify Image_convert Image_save py_repr.

(** X14.  Over any sequence of reruns from a fresh session, stored
    predictions other than [None] come with a stored analysis time, so the
    caption of line 376 always has a number to format. *)
Theorem analysis_time_with_predictions (rs : list Rerun) (last : option bool) :
  is_None (predictions (fst (runs initial_session last rs))) = false ->
  exists t, analysis_time (fst (runs initial_session last rs)) = Some t.
Proof.
  assert (G : forall rs ss last,
             (is_None (predictions ss) = false ->
              exists t, analysis_time ss = Some t) ->
             is_None (predictions (fst (runs ss last rs))) = false ->
             exists t, analysis_time (fst (runs ss last rs)) = Some t).
  { clear rs last. induction rs as [|r rs IH]; intros ss last Hinv.
    - exact Hinv.
    - unfold runs. cbn [run_all]. apply IH.
      destruct (run_script_cases Image_open Image_verify Image_convert
                  Image_save py_repr ss r)
        as [[Es _]|[res [Es _]]]; rewrite Es; [exact Hinv|].
      destruct res as [[[|] preds] err]; cbn [store_outcome predictions analysis_time].
      + intros _. eexists; reflexivity.
      + discriminate. }
  apply G. discriminate.
Qed.

(** X15.  A rerun with no upload, with an upload that is not valid, or with
    no click leaves the session as it was, and the one request it sends is
    the status check of the sidebar: the page is the same over any two
    networks that answer the GET of [PING_URL] with a timeout of 2 alike,
    whatever they do with a POST. *)
Theorem rerun_without_analysis (ss : SessionState) (r : Rerun) :
  (uploaded_file r = None \/
   (exists f, uploaded_file r = Some f /\
              fst (fst (validate_image Image_open Image_verify f)) = false) \/
   analyze_btn r = false) ->
  (forall get, session (page_body (page get ss r)) = ss) /\
  (forall get1 get2 net,
     get1 PING_URL 2 = get2 PING_URL 2 ->
     page get1 ss (with_network r net) = page get2 ss r).
Proof.
  intros H.
  assert (B : session (run ss r) = ss /\
              forall net, run ss (with_network r net) = run ss r).
  { unfold run, run_script, with_network.
    cbn [uploaded_file analyze_btn network elapsed].
    destruct (uploaded_file r) as [f|]; [|split; reflexivity].
    destruct (validate_image Image_open Image_verify f)
      as [[is_valid msg] f1] eqn:V.
    destruct is_valid; cbn [negb]; [|split; reflexivity].
    destruct (Image_open f1) as [[image|e] f2]; [|split; reflexivity].
    destruct (analyze_btn r); [|split; reflexivity].
    destruct H as [H|[[f' [H1 H2]]|H]]; try discriminate.
    injection H1 as <-. rewrite V in H2. discriminate. }
  destruct B as [B1 B2]. split.
  - intros get. exact B1.
  - intros get1 get2 net G. unfold page, run_page, health_check.
    fold (run ss (with_network r net)). fold (run ss r).
    rewrite G, B2. reflexivity.
Qed.

(** X16.  Predictions reach the display block only when an upload is there
    and valid, and then they are the stored ones and truthy: an empty
    mapping, although stored after a success, is never drawn. *)
Theorem displayed_needs_valid_upload (ss : SessionState) (r : Rerun) (p : pyval) :
  displayed (run ss r) = Some p ->
  p = predictions (session (run ss r)) /\
  truthy p = true /\
  exists f, uploaded_file r = Some f /\
            fst (fst (validate_image Image_open Image_verify f)) = true.
Proof.
  assert (D : forall s q, display_block s = Some q ->
                          q = predictions s /\ truthy q = true).
  { intros s q. unfold display_block.
    destruct (truthy (predictions s)) eqn:T; [|discriminate].
    intros [= <-]. auto. }
  unfold run, run_script.
  destruct (uploaded_file r) as [f|]; [|discriminate].
  destruct (validate_image Image_open Image_verify f) as [[is_valid msg] f1] eqn:V.
  destruct is_valid; cbn [negb]; [|discriminate].
  assert (X : exists f0, Some f = Some f0 /\
                fst (fst (validate_image Image_open Image_verify f0)) = true).
  { exists f. rewrite V. auto. }
  destruct (Image_open f1) as [[image|e] f2]; [|discriminate].
  destruct (analyze_btn r).
  - destruct (preprocess_image Image_convert Image_save image); [|discriminate].
    destruct (get_predictions (network r) py_repr a); [|discriminate].
    cbn [displayed session]. intros H. destruct (D _ _ H). auto.
  - cbn [displayed session]. intros H. destruct (D _ _ H). auto.
Qed.


End RerunFacts.

Lemma rerun_without_analysis_witness :
  run_page sniff_open read_all_verify mode_convert jpeg_save repr_stub
    pong after_success (with_network no_click (answers (Return dog_response))) =
  run_page sniff_open read_all_verify mode_convert jpeg_save repr_stub
    pong after_success no_click.
Proof.
  apply (proj2 (rerun_without_analysis sniff_open read_all_verify mode_convert
                  jpeg_save repr_stub after_success no_click
                  (or_intror (or_intror eq_refl)))).
  reflexivity.
Defined.

(** The sidebar status over a server that answers and over none. *)
Example health_check_examples :
  health_check pong = Online /\ health_check silent = Offline.
Proof. split; reflexivity. Qed.

Lemma displayed_needs_valid_upload_witness :
  truthy (PDict [("dog", PFloat 0.91)]) = true /\
  exists f, uploaded_file (click (answers (Return dog_response))) = Some f /\
            fst (fst (validate_image sniff_open read_all_verify f)) = true.
Proof.
  apply (displayed_needs_valid_upload sniff_open read_all_verify mode_convert
           jpeg_save repr_stub initial_session
           (click (answers (Return dog_response)))
           (PDict [("dog", PFloat 0.91)])).
  reflexivity.
Defined.

Lemma analysis_time_with_predictions_witness :
  exists t,
    analysis_time
      (fst (run_all sniff_open read_all_verify mode_convert jpeg_save repr_stub
              initial_session None
              [click (answers (Return dog_response)); no_click])) = Some t.
Proof.
  apply (analysis_time_with_predictions sniff_open read_all_verify mode_convert
           jpeg_save repr_stub
           [click (answers (Return dog_response)); no_click] None).
  reflexivity.
Defined.


(** ** [setup_model.py]: what gets printed *)


(** X19.  "Model saved" is printed exactly when the export block ran
    through, and "Labels saved" exactly when the download returned and the
    file is there afterwards; neither depends on the other block. *)
Theorem setup_model_success_lines (w : SetupWorld) :
  (In MODEL_SAVED_LINE (setup_model w) <-> exists u, trace_and_save w = Return u) /\
  (In LABELS_SAVED_LINE (setup_model w) <->
   (exists u, urlretrieve w = Return u) /\ labels_exist w = true).
Proof.
  unfold setup_model, setup_model_step, setup_labels_step,
    MODEL_SAVED_LINE, LABELS_SAVED_LINE, START_LINE, COMPLETE_LINE.
  destruct (trace_and_save w) as [u1|e1], (urlretrieve w) as [u2|e2],
           (labels_exist w);
    cbn [app In append];
    (split; split; intros H;
     [ repeat (destruct H as [H|H]; [try discriminate H|]);
       try contradiction;
       first [ eexists; reflexivity | split; [eexists|]; reflexivity ]
     | first [ now (destruct H as [u H]; discriminate H)
             | auto 10 ]
     | repeat (destruct H as [H|H]; [try discriminate H|]);
       try contradiction;
       first [ eexists; reflexivity | split; [eexists|]; reflexivity ]
     | first [ now (destruct H as [[u H1] H2];
                    first [discriminate H1 | discriminate H2])
             | auto 10 ] ]).
Qed.
